(** * A shallow embedding of the GA4 tracking runtime

    The development follows the TypeScript sources:

    - [src/core/GoogleAnalytics.ts]: the base class with the configuration
      check, the initialization state machine ([init],
      [loadGoogleAnalytics], [configureGA], [destroy]), the readiness
      predicate [isInitialized] and the dispatch path [trackEvent];
    - [core/GATracker.ts]: the event builders.  The repository carries
      three revisions of this class: one with positional arguments
      (module [Positional]), one with a single object parameter (module
      [ObjectParam]) and an older, smaller one (module [Legacy]).  All
      three are put on top of the base class above.

    JavaScript values are modelled as far as the builders look at them.
    Numbers are [NaN], the two infinities, or an exact rational: the
    binary64 rounding of arithmetic results is abstracted away, so that
    [+x.toFixed(2)] is the exact two-decimal number that the string
    returned by [toFixed] denotes.  Strings are sequences of 8-bit code
    units. *)

From Stdlib Require Import QArith Qround Qabs ZArith Lia Lqa Ascii String.
From stdpp Require Import base gmap strings list fin_maps.

Local Open Scope string_scope.
Local Open Scope list_scope.

(** ** JavaScript values *)

Module JS.

Inductive number :=
| NaN
| Infinity (negative : bool)
| Finite (q : Q).

(** [n <= 0] on numbers: every comparison with [NaN] is false. *)
Definition le_zero (n : number) : bool :=
  match n with
  | NaN => false
  | Infinity negative => negative
  | Finite q => Qle_bool q 0
  end.

(** [ToBoolean] on numbers: [0] and [NaN] are falsy. *)
Definition number_truthy (n : number) : bool :=
  match n with
  | NaN => false
  | Infinity _ => true
  | Finite q => negb (Qeq_bool q 0)
  end.

(** The integer [n] for which [n - q] is as close to zero as possible,
    for [q >= 0]; of two such integers, the larger one. *)
Definition nearest_integer (q : Q) : Z := Qfloor (q + (1 # 2)).

Definition pow10 (digits : nat) : Z := 10 ^ Z.of_nat digits.

(** [+x.toFixed(digits)].  [Number.prototype.toFixed] returns the name
    of a non-finite number, which unary plus reads back; otherwise it
    strips the sign, picks the nearest integer [n] to [|x| * 10^digits]
    (the larger on a tie) and prints [n / 10^digits] with the sign put
    back.  (From [1e21] on [toFixed] prints the number itself; binary64
    numbers of that size are integers, so the result is the same.) *)
Definition toFixed (digits : nat) (x : number) : number :=
  match x with
  | Finite q =>
      let scale := inject_Z (pow10 digits) in
      let n := nearest_integer (Qabs q * scale) in
      let m := Qred (inject_Z n / scale) in
      Finite (if Qle_bool 0 q then m else Qred (- m))
  | _ => x
  end.

(** The primitive values that item fields and custom parameters hold. *)
Inductive Prim :=
| PUndefined
| PNull
| PBool (b : bool)
| PNum (n : number)
| PStr (s : string).

(** [ToBoolean]. *)
Definition truthy (p : Prim) : bool :=
  match p with
  | PUndefined | PNull => false
  | PBool b => b
  | PNum n => number_truthy n
  | PStr s => negb (String.eqb s "")
  end.

Definition string_truthy (s : string) : bool := negb (String.eqb s "").

(** [a || b]. *)
Definition or_else (a b : Prim) : Prim := if truthy a then a else b.

(** Reading a property that may be missing gives [undefined]. *)
Definition get (o : gmap string Prim) (k : string) : Prim :=
  default PUndefined (o !! k).

Definition of_option_string (o : option string) : Prim :=
  match o with Some s => PStr s | None => PUndefined end.

Definition of_option_number (o : option number) : Prim :=
  match o with Some n => PNum n | None => PUndefined end.

(** White space for [String.prototype.trim], among the code units below
    256: TAB, LF, VT, FF, CR, SP and NBSP. *)
Definition is_white_space (c : ascii) : bool :=
  let n := nat_of_ascii c in
  ((9 <=? n)%nat && (n <=? 13)%nat) || (n =? 32)%nat || (n =? 160)%nat.

Fixpoint trimStart (s : string) : string :=
  match s with
  | EmptyString => EmptyString
  | String c rest => if is_white_space c then trimStart rest else s
  end.

Fixpoint trimEnd (s : string) : string :=
  match s with
  | EmptyString => EmptyString
  | String c rest =>
      let t := trimEnd rest in
      if is_white_space c && String.eqb t "" then EmptyString
      else String c t
  end.

Definition trim (s : string) : string := trimEnd (trimStart s).

(** [Math.round(x)]: the nearest integer, the larger one on a tie. *)
Definition Math_round (x : number) : number :=
  match x with
  | Finite q => Finite (inject_Z (Qfloor (q + (1 # 2))))
  | _ => x
  end.

End JS.
Export JS.

(** An object literal is read member by member, left to right: a field
    sets (or overwrites) its key, a spread copies every own property of
    its operand over what is there. *)
Inductive Member (V : Type) :=
| Field (key : string) (value : V)
| Spread (source : gmap string V).
Arguments Field {V} key value.
Arguments Spread {V} source.

Definition add_member {V} (acc : gmap string V) (m : Member V) : gmap string V :=
  match m with
  | Field k v => <[k := v]> acc
  | Spread o => o ∪ acc
  end.

Definition object_literal {V} (members : list (Member V)) : gmap string V :=
  foldl add_member ∅ members.

(** ** Data model ([types/core.ts], [types/analytics.ts], [types/ecommerce.ts]) *)

Inductive InitializationState :=
| NOT_INITIALIZED
| INITIALIZING
| INITIALIZED
| FAILED.

Inductive EventCategory :=
| ENGAGEMENT
| ECOMMERCE
| NAVIGATION
| INTERACTION
| CONVERSION
| ERROR
| PERFORMANCE
| CUSTOM.

Record GA4Config := {
  measurementId : string;
  debug : option bool;
  currency : option string;
  disableGA : option bool;
  customConfig : option (gmap string Prim);
}.

(** Truthiness of an optional boolean field. *)
Definition flag (o : option bool) : bool := default false o.

(** An item has the required [item_id], [item_name] and [price]; every
    other own property (the optional [quantity] among them) is kept in
    [more]. *)
Record EcommerceItem := {
  item_id : string;
  item_name : string;
  price : number;
  more : gmap string Prim;
}.

Definition CartItem := EcommerceItem.

(** The own enumerable properties that [...item] copies. *)
Definition own_properties (item : EcommerceItem) : gmap string Prim :=
  <["item_id" := PStr (item_id item)]>
    (<["item_name" := PStr (item_name item)]>
       (<["price" := PNum (price item)]> (more item))).

(** [item.quantity] *)
Definition quantity (item : EcommerceItem) : Prim :=
  get (own_properties item) "quantity".

(** The values found in a parameter bag. *)
Inductive JsValue :=
| VPrim (p : Prim)
| VItems (items : list (gmap string Prim)).

Record GAEvent := {
  event_name : string;
  event_parameters : gmap string JsValue;
  timestamp : option Z;
  event_category : EventCategory;
}.

(** [TrackingOptions]: of the per-call options the dispatch path reads
    [customParameters] and [onError] only. *)
Record TrackingOptions := {
  customParameters : gmap string JsValue;
  onError : bool;
}.

Definition no_options : TrackingOptions :=
  {| customParameters := ∅; onError := false |}.

Record PageViewOptions := {
  path : option string;
  title : option string;
  referrer : option string;
  customParams : gmap string JsValue;
}.

(** ** The hosting environment *)

Inductive ErrorClass := Error | TypeError | ReferenceError.

Record JsError := {
  error_class : ErrorClass;
  message : string;
}.

Definition new_Error (msg : string) : JsError :=
  {| error_class := Error; message := msg |}.

Definition PromiseId := nat.

Inductive Settlement :=
| Pending
| Fulfilled
| Rejected (reason : JsError).

(** The arguments of one call of the global reporting function. *)
Inductive GtagCall :=
| GtagJs (date : Z)
| GtagConfig (target : string) (debug_mode : option bool)
| GtagConsent (payload : gmap string Prim)
| GtagEvent (name : string) (eventData : gmap string JsValue).

(** What [window.gtag] holds when it is a function: the one installed by
    [configureGA], which pushes its arguments on [window.dataLayer], or a
    function of the page, which may throw. *)
Inductive GtagFunction :=
| DataLayerGtag
| ForeignGtag (failure : option JsError).

(** A script element appended to the document head; its [onload] and
    [onerror] handlers settle [script_promise]. *)
Record Script := {
  script_src : string;
  script_promise : PromiseId;
}.

Record Window := {
  location_href : string;
  document_title : string;
  document_referrer : string;
  gtag : option GtagFunction;
  dataLayer : option (list GtagCall);
  head : list Script;
}.

Inductive ConsoleLevel := Warn | Err.

(** The instance fields of [GoogleAnalytics] and the environment it runs
    in.  [window = None] stands for a host without [window]/[document].
    [gtag_calls] records every invocation of [window.gtag];
    [load_attempts] counts the runs of the executor that injects the
    backend script; [suspended] holds the [init] bodies waiting at their
    [await], as pairs of the awaited promise and the promise of the call;
    [microtasks] holds the errors handed to queued [onError] callbacks. *)
Record World := {
  config : GA4Config;
  initializationState : InitializationState;
  gtagLoadPromise : option PromiseId;
  window : option Window;
  clock : Z;
  console : list (ConsoleLevel * string);
  gtag_calls : list GtagCall;
  promises : list Settlement;
  suspended : list (PromiseId * PromiseId);
  microtasks : list JsError;
  load_attempts : nat;
}.

Definition set_config (c : GA4Config) (w : World) : World :=
  {| config := c; initializationState := initializationState w;
     gtagLoadPromise := gtagLoadPromise w; window := window w;
     clock := clock w; console := console w; gtag_calls := gtag_calls w;
     promises := promises w; suspended := suspended w;
     microtasks := microtasks w; load_attempts := load_attempts w |}.

Definition set_initializationState (s : InitializationState) (w : World) : World :=
  {| config := config w; initializationState := s;
     gtagLoadPromise := gtagLoadPromise w; window := window w;
     clock := clock w; console := console w; gtag_calls := gtag_calls w;
     promises := promises w; suspended := suspended w;
     microtasks := microtasks w; load_attempts := load_attempts w |}.

Definition set_gtagLoadPromise (p : option PromiseId) (w : World) : World :=
  {| config := config w; initializationState := initializationState w;
     gtagLoadPromise := p; window := window w;
     clock := clock w; console := console w; gtag_calls := gtag_calls w;
     promises := promises w; suspended := suspended w;
     microtasks := microtasks w; load_attempts := load_attempts w |}.

Definition set_window (win : option Window) (w : World) : World :=
  {| config := config w; initializationState := initializationState w;
     gtagLoadPromise := gtagLoadPromise w; window := win;
     clock := clock w; console := console w; gtag_calls := gtag_calls w;
     promises := promises w; suspended := suspended w;
     microtasks := microtasks w; load_attempts := load_attempts w |}.

Definition set_console (c : list (ConsoleLevel * string)) (w : World) : World :=
  {| config := config w; initializationState := initializationState w;
     gtagLoadPromise := gtagLoadPromise w; window := window w;
     clock := clock w; console := c; gtag_calls := gtag_calls w;
     promises := promises w; suspended := suspended w;
     microtasks := microtasks w; load_attempts := load_attempts w |}.

Definition set_gtag_calls (c : list GtagCall) (w : World) : World :=
  {| config := config w; initializationState := initializationState w;
     gtagLoadPromise := gtagLoadPromise w; window := window w;
     clock := clock w; console := console w; gtag_calls := c;
     promises := promises w; suspended := suspended w;
     microtasks := microtasks w; load_attempts := load_attempts w |}.

Definition set_promises (ps : list Settlement) (w : World) : World :=
  {| config := config w; initializationState := initializationState w;
     gtagLoadPromise := gtagLoadPromise w; window := window w;
     clock := clock w; console := console w; gtag_calls := gtag_calls w;
     promises := ps; suspended := suspended w;
     microtasks := microtasks w; load_attempts := load_attempts w |}.

Definition set_suspended (l : list (PromiseId * PromiseId)) (w : World) : World :=
  {| config := config w; initializationState := initializationState w;
     gtagLoadPromise := gtagLoadPromise w; window := window w;
     clock := clock w; console := console w; gtag_calls := gtag_calls w;
     promises := promises w; suspended := l;
     microtasks := microtasks w; load_attempts := load_attempts w |}.

Definition set_microtasks (l : list JsError) (w : World) : World :=
  {| config := config w; initializationState := initializationState w;
     gtagLoadPromise := gtagLoadPromise w; window := window w;
     clock := clock w; console := console w; gtag_calls := gtag_calls w;
     promises := promises w; suspended := suspended w;
     microtasks := l; load_attempts := load_attempts w |}.

Definition set_load_attempts (n : nat) (w : World) : World :=
  {| config := config w; initializationState := initializationState w;
     gtagLoadPromise := gtagLoadPromise w; window := window w;
     clock := clock w; console := console w; gtag_calls := gtag_calls w;
     promises := promises w; suspended := suspended w;
     microtasks := microtasks w; load_attempts := n |}.

Definition set_gtag (g : option GtagFunction) (win : Window) : Window :=
  {| location_href := location_href win; document_title := document_title win;
     document_referrer := document_referrer win; gtag := g;
     dataLayer := dataLayer win; head := head win |}.

Definition set_dataLayer (d : option (list GtagCall)) (win : Window) : Window :=
  {| location_href := location_href win; document_title := document_title win;
     document_referrer := document_referrer win; gtag := gtag win;
     dataLayer := d; head := head win |}.

Definition set_head (h : list Script) (win : Window) : Window :=
  {| location_href := location_href win; document_title := document_title win;
     document_referrer := document_referrer win; gtag := gtag win;
     dataLayer := dataLayer win; head := h |}.

(** ** Computations: state passing with exceptions *)

Inductive completion (A : Type) :=
| Normal (a : A)
| Throw (e : JsError).
Arguments Normal {A} a.
Arguments Throw {A} e.

(** A computation runs in a world and either completes normally or
    throws; the effects made before a throw stay.  For an [async] method
    that reaches no pending [await], [Throw e] is the rejection of the
    promise it returns and [Normal] its fulfilment. *)
Definition Js (A : Type) : Type := World → completion A * World.

Definition ret {A} (a : A) : Js A := λ w, (Normal a, w).

Definition bind {A B} (m : Js A) (k : A → Js B) : Js B :=
  λ w, match m w with
       | (Normal a, w') => k a w'
       | (Throw e, w') => (Throw e, w')
       end.

Definition throw {A} (e : JsError) : Js A := λ w, (Throw e, w).

Definition try_catch {A} (body : Js A) (handler : JsError → Js A) : Js A :=
  λ w, match body w with
       | (Normal a, w') => (Normal a, w')
       | (Throw e, w') => handler e w'
       end.

Definition read {A} (f : World → A) : Js A := λ w, (Normal (f w), w).

Definition modify (f : World → World) : Js unit := λ w, (Normal tt, f w).

#[global] Instance Js_ret : MRet Js := @ret.
#[global] Instance Js_bind : MBind Js := λ A B k m, bind m k.

#[global] Instance InitializationState_eq_dec : EqDecision InitializationState.
Proof. solve_decision. Defined.

(** ** [utils/validation.ts] *)

Definition isBrowser (w : World) : bool :=
  match window w with Some _ => true | None => false end.

(** [isBrowser() && typeof window.gtag === "function"] *)
Definition isGtagAvailable (w : World) : bool :=
  isBrowser w &&
  match window w with
  | Some win => match gtag win with Some _ => true | None => false end
  | None => false
  end.

Definition is_upper_or_digit (c : ascii) : bool :=
  let n := nat_of_ascii c in
  ((65 <=? n)%nat && (n <=? 90)%nat) || ((48 <=? n)%nat && (n <=? 57)%nat).

(** [VALIDATION_PATTERNS.MEASUREMENT_ID.test(id)] with the pattern
    [/^G-[A-Z0-9]{10}$/]. *)
Definition validateMeasurementId (id : string) : bool :=
  match id with
  | String "G" (String "-" rest) =>
      (String.length rest =? 10)%nat &&
      forallb is_upper_or_digit (list_ascii_of_string rest)
  | _ => false
  end.

Definition is_upper (c : ascii) : bool :=
  let n := nat_of_ascii c in (65 <=? n)%nat && (n <=? 90)%nat.

Definition is_letter (c : ascii) : bool :=
  let n := nat_of_ascii c in
  ((65 <=? n)%nat && (n <=? 90)%nat) || ((97 <=? n)%nat && (n <=? 122)%nat).

Definition is_digit (c : ascii) : bool :=
  let n := nat_of_ascii c in (48 <=? n)%nat && (n <=? 57)%nat.

(** [VALIDATION_PATTERNS.CURRENCY_CODE.test(currency)] with the pattern
    [/^[A-Z]{3}$/]. *)
Definition validateCurrency (code : string) : bool :=
  (String.length code =? 3)%nat &&
  forallb is_upper (list_ascii_of_string code).

(** [GA_LIMITS.MAX_EVENT_NAME_LENGTH] *)
Definition MAX_EVENT_NAME_LENGTH : nat := 40.

(** [VALIDATION_PATTERNS.EVENT_NAME.test(name)] with the pattern
    [/^[a-zA-Z][a-zA-Z0-9_]{0,39}$/]. *)
Definition EVENT_NAME_test (name : string) : bool :=
  match name with
  | String c rest =>
      is_letter c && (String.length rest <=? 39)%nat &&
      forallb (λ d, is_letter d || is_digit d || Ascii.eqb d "_")
        (list_ascii_of_string rest)
  | EmptyString => false
  end.

(** The result [{ isValid, error? }] of a validator. *)
Record Validation := {
  isValid : bool;
  error : option string;
}.

Definition validateEventName (eventName : string) : Validation :=
  if negb (string_truthy eventName) then
    {| isValid := false;
       error := Some "Event name is required and must be a string" |}
  else if (MAX_EVENT_NAME_LENGTH <? String.length eventName)%nat then
    {| isValid := false;
       error := Some "Event name exceeds maximum length of 40 characters" |}
  else if negb (EVENT_NAME_test eventName) then
    {| isValid := false;
       error := Some "Event name must start with a letter and contain only letters, numbers, and underscores" |}
  else {| isValid := true; error := None |}.

(** ** [core/GoogleAnalytics.ts] *)

Module GoogleAnalytics.

(** What the host gives before an instance exists. *)
Record Environment := {
  env_window : option Window;
  env_clock : Z;
  env_development : bool;
}.

(** The field initializers of the class. *)
Definition field_initializers (env : Environment) : World :=
  {| config := {| measurementId := ""; debug := Some (env_development env);
                  currency := Some "USD"; disableGA := Some false;
                  customConfig := None |};
     initializationState := NOT_INITIALIZED;
     gtagLoadPromise := None;
     window := env_window env;
     clock := env_clock env;
     console := []; gtag_calls := []; promises := []; suspended := [];
     microtasks := []; load_attempts := 0 |}.

Definition validateConfig : Js unit :=
  cfg ← read config;
  if flag (disableGA cfg) then mret tt
  else if negb (string_truthy (measurementId cfg))
       then throw (new_Error "GA4 measurementId is required")
       else mret tt.

Definition constructor (cfg : GA4Config) : Js unit :=
  modify (set_config cfg);;
  validateConfig;;
  modify (set_initializationState NOT_INITIALIZED).

(** [new GATracker(cfg)] in the environment [env]: the instance, or the
    error thrown by the constructor. *)
Definition new (env : Environment) (cfg : GA4Config) : completion World :=
  match constructor cfg (field_initializers env) with
  | (Normal _, w) => Normal w
  | (Throw e, _) => Throw e
  end.

Definition isInitialized (w : World) : bool :=
  if flag (disableGA (config w)) then true
  else bool_decide (initializationState w = INITIALIZED) || isGtagAvailable w.

Definition getInitializationState (w : World) : InitializationState :=
  initializationState w.

(** *** Promises *)

Definition new_promise (s : Settlement) : Js PromiseId :=
  λ w, (Normal (length (promises w)), set_promises (promises w ++ [s]) w).

(** [Promise.resolve()] *)
Definition Promise_resolve : Js PromiseId := new_promise Fulfilled.

(** Settling a promise that is no longer pending does nothing. *)
Definition settle (p : PromiseId) (s : Settlement) : Js unit :=
  modify (λ w, match promises w !! p with
               | Some Pending => set_promises (<[p := s]> (promises w)) w
               | _ => w
               end).

(** [new Promise(executor)]: an exception of the executor rejects the
    promise. *)
Definition new_Promise (executor : PromiseId → Js unit) : Js PromiseId :=
  p ← new_promise Pending;
  try_catch (executor p) (λ e, settle p (Rejected e));;
  mret p.

Definition state_of (w : World) (p : PromiseId) : Settlement :=
  default Pending (promises w !! p).

(** *** The reporting function *)

(** [window.gtag(...)] *)
Definition call_gtag (c : GtagCall) : Js unit :=
  λ w,
    match window w with
    | None =>
        (Throw {| error_class := ReferenceError;
                  message := "window is not defined" |}, w)
    | Some win =>
        match gtag win with
        | None =>
            (Throw {| error_class := TypeError;
                      message := "window.gtag is not a function" |}, w)
        | Some DataLayerGtag =>
            let w1 := set_gtag_calls (gtag_calls w ++ [c]) w in
            match dataLayer win with
            | Some layer =>
                (Normal tt,
                 set_window (Some (set_dataLayer (Some (layer ++ [c])) win)) w1)
            | None =>
                (Throw {| error_class := TypeError;
                          message := "Cannot read properties of undefined" |},
                 w1)
            end
        | Some (ForeignGtag failure) =>
            let w1 := set_gtag_calls (gtag_calls w ++ [c]) w in
            match failure with
            | None => (Normal tt, w1)
            | Some e => (Throw e, w1)
            end
        end
    end.

Definition configureGA : Js unit :=
  (λ w, match window w with
        | None =>
            (Throw {| error_class := ReferenceError;
                      message := "window is not defined" |}, w)
        | Some win =>
            (Normal tt,
             set_window
               (Some (set_gtag (Some DataLayerGtag)
                        (set_dataLayer (Some (default [] (dataLayer win))) win)))
               w)
        end);;
  now ← read clock;
  call_gtag (GtagJs now);;
  cfg ← read config;
  call_gtag (GtagConfig (measurementId cfg) (debug cfg));;
  match customConfig cfg with
  | Some custom => call_gtag (GtagConsent custom)
  | None => mret tt
  end.

(** [document.createElement("script")], its [src], and
    [document.head.appendChild]; the handlers wired afterwards settle
    [p]. *)
Definition append_script (id : string) (p : PromiseId) : Js unit :=
  λ w, match window w with
       | None =>
           (Throw {| error_class := ReferenceError;
                     message := "document is not defined" |}, w)
       | Some win =>
           let tag := {| script_src :=
                           "https://www.googletagmanager.com/gtag/js?id=" +:+ id;
                         script_promise := p |} in
           (Normal tt, set_window (Some (set_head (head win ++ [tag]) win)) w)
       end.

(** The promise that an [async] method returns settles as the promise
    given to [return] does; the method is modelled as returning that
    promise. *)
Definition loadGoogleAnalytics : Js PromiseId :=
  ready ← read isInitialized;
  if (ready : bool) then Promise_resolve
  else
    cfg ← read config;
    p ← new_Promise (λ p,
           modify (λ w, set_load_attempts (S (load_attempts w)) w);;
           append_script (measurementId cfg) p;;
           configureGA);
    modify (set_gtagLoadPromise (Some p));;
    mret p.

(** [init] up to its [await]: the body after it is [resume], run from the
    microtask queue once the awaited promise is settled. *)
Definition init : Js PromiseId :=
  ready ← read isInitialized;
  if (ready : bool) then Promise_resolve
  else
    st ← read initializationState;
    if bool_decide (st = INITIALIZING) then
      pending ← read gtagLoadPromise;
      match pending with
      | Some p => mret p
      | None => Promise_resolve
      end
    else
      modify (set_initializationState INITIALIZING);;
      loading ← loadGoogleAnalytics;
      result ← new_promise Pending;
      modify (λ w, set_suspended (suspended w ++ [(loading, result)]) w);;
      mret result.

(** The rest of [init] after [await]: every value thrown in this model is
    an [Error], so the message of the cause is always used. *)
Definition resume (awaited result : PromiseId) (s : Settlement) : Js unit :=
  match s with
  | Pending => mret tt
  | Fulfilled =>
      modify (set_initializationState INITIALIZED);;
      settle result Fulfilled
  | Rejected error =>
      modify (set_initializationState FAILED);;
      settle result
        (Rejected (new_Error ("GA4 initialization failed: " +:+ message error)))
  end.

Fixpoint resume_all (l : list (PromiseId * PromiseId)) : Js unit :=
  match l with
  | [] => mret tt
  | (awaited, result) :: rest =>
      s ← read (λ w, state_of w awaited);
      (match s with
       | Pending =>
           modify (λ w, set_suspended (suspended w ++ [(awaited, result)]) w)
       | _ => resume awaited result s
       end);;
      resume_all rest
  end.

(** Draining the microtask queue: every suspended [init] whose awaited
    promise is settled goes on. *)
Definition run_microtasks : Js unit :=
  waiting ← read suspended;
  modify (set_suspended []);;
  resume_all waiting.

Definition script_event (k : nat) (s : Settlement) : Js unit :=
  λ w, match window w with
       | Some win =>
           match head win !! k with
           | Some tag => settle (script_promise tag) s w
           | None => (Normal tt, w)
           end
       | None => (Normal tt, w)
       end.

(** [scriptTag.onload] *)
Definition script_onload (k : nat) : Js unit := script_event k Fulfilled.

(** [scriptTag.onerror] *)
Definition script_onerror (k : nat) : Js unit :=
  script_event k (Rejected (new_Error "Failed to load Google Analytics script")).

Definition console_log (level : ConsoleLevel) (msg : string) : Js unit :=
  modify (λ w, set_console (console w ++ [(level, msg)]) w).

(** [queueMicrotask(() => options.onError(err))] *)
Definition queueMicrotask (err : JsError) : Js unit :=
  modify (λ w, set_microtasks (microtasks w ++ [err]) w).

Definition trackEvent (event : GAEvent) (options : TrackingOptions) : Js unit :=
  cfg ← read config;
  if flag (disableGA cfg) then mret tt
  else
    available ← read isGtagAvailable;
    if negb (available : bool) then console_log Warn "GA4: gtag not available"
    else
      try_catch
        (let eventData :=
           object_literal [Spread (event_parameters event);
                           Spread (customParameters options)] in
         call_gtag (GtagEvent (event_name event) eventData))
        (λ err,
           console_log Err "GA4: Error tracking event";;
           if onError options then queueMicrotask err else mret tt).

Definition destroy : Js unit :=
  modify (set_gtagLoadPromise None);;
  modify (set_initializationState NOT_INITIALIZED).

End GoogleAnalytics.
Export GoogleAnalytics.

(** ** [utils/constants.ts] and the action enums of [types/ecommerce.ts] *)

Module GA_EVENTS.
Definition PAGE_VIEW := "page_view".
Definition SEARCH := "search".
Definition PURCHASE := "purchase".
Definition REFUND := "refund".
Definition ADD_PAYMENT_INFO := "add_payment_info".
Definition ADD_SHIPPING_INFO := "add_shipping_info".
Definition ADD_TO_WISHLIST := "add_to_wishlist".
Definition REMOVE_FROM_WISHLIST := "remove_from_wishlist".
Definition VIEW_WISHLIST := "view_wishlist".
Definition BEGIN_CHECKOUT := "begin_checkout".
Definition ADD_TO_CART := "add_to_cart".
Definition VIEW_CART := "view_cart".
Definition UPDATE_CART := "update_cart".
Definition REMOVE_FROM_CART := "remove_from_cart".
Definition VIEW_ITEM := "view_item".
(** Modelled from the spec: the table of event names under [src/] has no
    [UPDATE_WISHLIST], [SELECT_ITEM], [VIEW_ITEM_LIST], [VIEW_PROMOTION]
    or [SELECT_PROMOTION] entry, which the builders read; the spec names
    the actions (wishlist update, item select and list, promotion view
    and select) and the names follow the other entries. *)
Definition UPDATE_WISHLIST := "update_wishlist".
Definition SELECT_ITEM := "select_item".
Definition VIEW_ITEM_LIST := "view_item_list".
Definition VIEW_PROMOTION := "view_promotion".
Definition SELECT_PROMOTION := "select_promotion".
Definition VIDEO_START := "video_start".
End GA_EVENTS.

(** String enums are strings at run time; the builders compare the
    action they get with these members and reject anything else. *)
Module CartType.
Definition ADD_TO_CART := "add_to_cart".
Definition REMOVE_FROM_CART := "remove_from_cart".
Definition VIEW_CART := "view_cart".
Definition UPDATE_CART := "update_cart".
End CartType.

(** Modelled from the spec: the declarations of [WishlistType],
    [ItemType] and [PromotionType] are not under [src/]; the spec lists
    their members (wishlist add/remove/view/update, item
    view/select/list, promotion view/select). *)
Module WishlistType.
Definition ADD_TO_WISHLIST := "add_to_wishlist".
Definition REMOVE_FROM_WISHLIST := "remove_from_wishlist".
Definition VIEW_WISHLIST := "view_wishlist".
Definition UPDATE_WISHLIST := "update_wishlist".
End WishlistType.

Module ItemType.
Definition SELECT_ITEM := "select_item".
Definition VIEW_ITEM := "view_item".
Definition VIEW_ITEM_LIST := "view_item_list".
End ItemType.

Module PromotionType.
Definition VIEW_PROMOTION := "view_promotion".
Definition SELECT_PROMOTION := "select_promotion".
End PromotionType.

Definition valid_wishlist_action (a : string) : Prop :=
  a ∈ [WishlistType.ADD_TO_WISHLIST; WishlistType.REMOVE_FROM_WISHLIST;
       WishlistType.VIEW_WISHLIST; WishlistType.UPDATE_WISHLIST].

(** ** Pieces shared by the builders *)

Definition one : Prim := PNum (Finite 1).

(** The callback of [items.map] in the builders:
    [{ quantity: item.quantity || 1, ...item, price: +item.price.toFixed(2) }] *)
Definition normalize_item (item : CartItem) : gmap string Prim :=
  object_literal [Field "quantity" (or_else (quantity item) one);
                  Spread (own_properties item);
                  Field "price" (PNum (toFixed 2 (price item)))].

(** [+value.toFixed(2)] for a value that may be [undefined] or [null]. *)
Definition fixed_value (value : option number) : Js number :=
  match value with
  | Some n => mret (toFixed 2 n)
  | None =>
      throw {| error_class := TypeError;
               message := "Cannot read properties of undefined" |}
  end.

(** [value == null] *)
Definition is_nullish (value : option number) : bool :=
  match value with None => true | Some _ => false end.

(** [!value] *)
Definition missing (value : option number) : bool :=
  negb (truthy (of_option_number value)).

Definition currency_of (cfg : GA4Config) : JsValue :=
  VPrim (of_option_string (currency cfg)).

Definition str (s : string) : JsValue := VPrim (PStr s).
Definition num (n : number) : JsValue := VPrim (PNum n).

(** ** [core/GATracker.ts], positional arguments *)

Module Positional.

Definition buildEvent (name : string) (params : gmap string JsValue)
    (category : EventCategory) : Js GAEvent :=
  now ← read clock;
  mret {| event_name := name; event_parameters := params;
          timestamp := Some now; event_category := category |}.

Definition trackPage (options : PageViewOptions) : Js unit :=
  browser ← read isBrowser;
  href ← read (λ w, location_href <$> window w);
  let pageUrl :=
    match path options with
    | Some p => Some p
    | None => if (browser : bool) then href else None
    end in
  match pageUrl with
  | None | Some "" =>
      cfg ← read config;
      if flag (debug cfg)
      then console_log Warn "GA4: Cannot track page view without path"
      else mret tt
  | Some pageUrl =>
      doc_title ← read (λ w, default "" (document_title <$> window w));
      doc_referrer ← read (λ w, default "" (document_referrer <$> window w));
      let pageTitle := default doc_title (title options) in
      let pageReferrer := default doc_referrer (referrer options) in
      event ← buildEvent GA_EVENTS.PAGE_VIEW
        (object_literal [Field "page_title" (str pageTitle);
                         Field "page_location" (str pageUrl);
                         Field "page_referrer" (str pageReferrer);
                         Spread (customParams options)])
        ENGAGEMENT;
      trackEvent event no_options
  end.

Definition trackItem (action : string) (items : list CartItem)
    (item_list_id item_list_name : option string) (value : option number)
    (customParams : gmap string JsValue) : Js unit :=
  if (length items =? 0)%nat then
    throw (new_Error ("GA4: Cannot track " +:+ action +:+ " with empty items"))
  else
    eventName ←
      (if String.eqb action ItemType.SELECT_ITEM then mret GA_EVENTS.SELECT_ITEM
       else if String.eqb action ItemType.VIEW_ITEM then mret GA_EVENTS.VIEW_ITEM
       else if String.eqb action ItemType.VIEW_ITEM_LIST
            then mret GA_EVENTS.VIEW_ITEM_LIST
       else throw (new_Error ("GA4: Unsupported cart action " +:+ action)));
    cfg ← read config;
    let eventParams :=
      object_literal [Field "items" (VItems (normalize_item <$> items));
                      Spread customParams] in
    let eventParams :=
      if String.eqb action ItemType.VIEW_ITEM then
        <["value" := VPrim (of_option_number value)]>
          (<["currency" := currency_of cfg]> eventParams)
      else
        <["item_list_name" := VPrim (of_option_string item_list_name)]>
          (<["item_list_id" := VPrim (of_option_string item_list_id)]> eventParams)
    in
    event ← buildEvent eventName eventParams ECOMMERCE;
    trackEvent event no_options.

Definition trackCart (action : string) (items : list CartItem)
    (value : option number) (customParams : gmap string JsValue) : Js unit :=
  if (length items =? 0)%nat then
    throw (new_Error ("GA4: Cannot track " +:+ action +:+ " with empty items"))
  else if missing value then
    throw (new_Error ("GA4: Cannot track " +:+ action +:+ " without value"))
  else
    eventName ←
      (if String.eqb action CartType.ADD_TO_CART then mret GA_EVENTS.ADD_TO_CART
       else if String.eqb action CartType.REMOVE_FROM_CART
            then mret GA_EVENTS.REMOVE_FROM_CART
       else if String.eqb action CartType.VIEW_CART then mret GA_EVENTS.VIEW_CART
       else if String.eqb action CartType.UPDATE_CART
            then mret GA_EVENTS.UPDATE_CART
       else throw (new_Error ("GA4: Unsupported cart action " +:+ action)));
    cfg ← read config;
    rounded ← fixed_value value;
    let eventParams :=
      object_literal [Field "currency" (currency_of cfg);
                      Field "value" (num rounded);
                      Field "items" (VItems (normalize_item <$> items));
                      Spread customParams] in
    event ← buildEvent eventName eventParams ECOMMERCE;
    trackEvent event no_options.

Definition trackWishlist (action : string) (items : list CartItem)
    (value : option number) (customParams : gmap string JsValue) : Js unit :=
  if (length items =? 0)%nat then
    throw (new_Error ("GA4: Cannot track " +:+ action +:+ " with empty items"))
  else if missing value then
    throw (new_Error ("GA4: Cannot track " +:+ action +:+ " without value"))
  else
    eventName ←
      (if String.eqb action WishlistType.ADD_TO_WISHLIST
       then mret GA_EVENTS.ADD_TO_WISHLIST
       else if String.eqb action WishlistType.REMOVE_FROM_WISHLIST
            then mret GA_EVENTS.REMOVE_FROM_WISHLIST
       else if String.eqb action WishlistType.VIEW_WISHLIST
            then mret GA_EVENTS.VIEW_WISHLIST
       else if String.eqb action WishlistType.UPDATE_WISHLIST
            then mret GA_EVENTS.UPDATE_WISHLIST
       else throw (new_Error ("GA4: Unsupported wishlist action " +:+ action)));
    cfg ← read config;
    rounded ← fixed_value value;
    let eventParams :=
      object_literal [Field "currency" (currency_of cfg);
                      Field "value" (num rounded);
                      Field "items" (VItems (normalize_item <$> items));
                      Spread customParams] in
    event ← buildEvent eventName eventParams ECOMMERCE;
    trackEvent event no_options.

Definition trackShippingInfo (items : list CartItem) (value : option number)
    (shipping_tier : string) (customParams : gmap string JsValue) : Js unit :=
  if (length items =? 0)%nat then
    throw (new_Error "GA4: Cannot track shipping info with empty items")
  else if missing value then
    throw (new_Error "GA4: Cannot track shipping info without value")
  else
    cfg ← read config;
    rounded ← fixed_value value;
    let eventParams :=
      object_literal [Field "currency" (currency_of cfg);
                      Field "value" (num rounded);
                      Field "items" (VItems (normalize_item <$> items));
                      Field "shipping_tier" (str shipping_tier);
                      Spread customParams] in
    event ← buildEvent GA_EVENTS.ADD_SHIPPING_INFO eventParams ECOMMERCE;
    trackEvent event no_options.

Definition trackPaymentInfo (items : list CartItem) (value : option number)
    (payment_type : string) (customParams : gmap string JsValue) : Js unit :=
  if (length items =? 0)%nat then
    throw (new_Error "GA4: Cannot track payment info with empty items")
  else if missing value then
    throw (new_Error "GA4: Cannot track payment info without value")
  else
    cfg ← read config;
    rounded ← fixed_value value;
    let eventParams :=
      object_literal [Field "currency" (currency_of cfg);
                      Field "value" (num rounded);
                      Field "items" (VItems (normalize_item <$> items));
                      Field "payment_type" (str payment_type);
                      Spread customParams] in
    event ← buildEvent GA_EVENTS.ADD_PAYMENT_INFO eventParams ECOMMERCE;
    trackEvent event no_options.

Definition trackPurchase (transactionId : string) (value : number)
    (items : list EcommerceItem) (customParams : gmap string JsValue) : Js unit :=
  if negb (string_truthy transactionId) || le_zero value then
    throw (new_Error "GA4: Invalid purchase parameters")
  else
    cfg ← read config;
    let eventParams :=
      object_literal [Field "transaction_id" (str transactionId);
                      Field "currency" (currency_of cfg);
                      Field "value" (num (toFixed 2 value));
                      Field "items" (VItems (normalize_item <$> items));
                      Spread customParams] in
    event ← buildEvent GA_EVENTS.PURCHASE eventParams ECOMMERCE;
    trackEvent event no_options.

Definition trackRefund (transactionId : string) (value : number)
    (items : list EcommerceItem) (customParams : gmap string JsValue) : Js unit :=
  if negb (string_truthy transactionId) || le_zero value then
    throw (new_Error "GA4: Invalid refund parameters")
  else
    cfg ← read config;
    let eventParams :=
      object_literal [Field "transaction_id" (str transactionId);
                      Field "currency" (currency_of cfg);
                      Field "value" (num (toFixed 2 value));
                      Field "items" (VItems (normalize_item <$> items));
                      Spread customParams] in
    event ← buildEvent GA_EVENTS.REFUND eventParams ECOMMERCE;
    trackEvent event no_options.

(** [searchTerm?.trim()]: [None] stands for [null] or [undefined]. *)
Definition trackSearch (searchTerm : option string)
    (options : gmap string JsValue) : Js unit :=
  match trim <$> searchTerm with
  | None | Some "" =>
      cfg ← read config;
      if flag (debug cfg) then console_log Warn "GA4: Search term is required"
      else mret tt
  | Some trimmed =>
      event ← buildEvent GA_EVENTS.SEARCH
        (object_literal [Field "search_term" (str trimmed); Spread options])
        ENGAGEMENT;
      trackEvent event no_options
  end.

Definition trackPromotion (action : string) (items : list CartItem)
    (creative_name creative_slot promotion_id promotion_name : string)
    (customParams : gmap string JsValue) : Js unit :=
  if (length items =? 0)%nat then
    throw (new_Error ("GA4: Cannot track " +:+ action +:+ " with empty items"))
  else if negb (string_truthy creative_name) then
    throw (new_Error ("GA4: Cannot track " +:+ action +:+ " without creative_name"))
  else
    eventName ←
      (if String.eqb action PromotionType.VIEW_PROMOTION
       then mret GA_EVENTS.VIEW_PROMOTION
       else if String.eqb action PromotionType.SELECT_PROMOTION
            then mret GA_EVENTS.SELECT_PROMOTION
       else throw (new_Error ("GA4: Unsupported promotion action " +:+ action)));
    let eventParams :=
      object_literal [Field "creative_name" (str creative_name);
                      Field "creative_slot" (str creative_slot);
                      Field "promotion_id" (str promotion_id);
                      Field "promotion_name" (str promotion_name);
                      Field "items" (VItems (normalize_item <$> items));
                      Spread customParams] in
    event ← buildEvent eventName eventParams ECOMMERCE;
    trackEvent event no_options.

Definition trackCustomEvent (eventName : string)
    (parameters : gmap string JsValue) (category : EventCategory) : Js unit :=
  event ← buildEvent eventName parameters category;
  trackEvent event no_options.

(** [...(duration && { video_duration: duration })]: spreading a falsy
    number or [undefined] adds nothing. *)
Definition trackVideoPlay (title url : string) (duration : option number)
    (customParams : gmap string JsValue) : Js unit :=
  event ← buildEvent GA_EVENTS.VIDEO_START
    (object_literal
       [Field "video_title" (str title);
        Field "video_url" (str url);
        Spread (match duration with
                | Some d => if number_truthy d
                            then {["video_duration" := num d]} else ∅
                | None => ∅
                end);
        Spread customParams])
    ENGAGEMENT;
  trackEvent event no_options.

(** The [try] covers the evaluation of the arguments, where
    [value.toFixed] throws for a missing value; the items go out as they
    came in. *)
Definition trackBeginCheckout (value : option number) (items : list CartItem)
    (customParams : gmap string JsValue) : Js unit :=
  try_catch
    (cfg ← read config;
     rounded ← fixed_value value;
     event ← buildEvent GA_EVENTS.BEGIN_CHECKOUT
       (object_literal [Field "currency" (currency_of cfg);
                        Field "value" (num rounded);
                        Field "items" (VItems (own_properties <$> items));
                        Spread customParams])
       ECOMMERCE;
     trackEvent event no_options)
    (λ error,
       cfg ← read config;
       if flag (debug cfg)
       then console_log Err "GA4: Error tracking begin_checkout"
       else mret tt).

Definition trackTiming (category variable : string) (value : number)
    (label : option string) : Js unit :=
  event ← buildEvent "timing_complete"
    (object_literal
       [Field "name" (str variable);
        Field "value" (num (Math_round value));
        Field "event_category" (str category);
        Spread (match label with
                | Some l => if string_truthy l
                            then {["event_label" := str l]} else ∅
                | None => ∅
                end)])
    PERFORMANCE;
  trackEvent event no_options.

End Positional.

(** ** [core/GATracker.ts], one object parameter *)

Module ObjectParam.

Definition buildEvent (name : string) (params : gmap string JsValue)
    (category : EventCategory) : Js GAEvent :=
  mret {| event_name := name; event_parameters := params;
          timestamp := None; event_category := category |}.

(** The argument is destructured as [{ path, title, referrer, ...params }]:
    [customParams options] stands for the rest, every other own property
    of the argument. *)
Definition trackPage (options : PageViewOptions) : Js unit :=
  browser ← read isBrowser;
  href ← read (λ w, location_href <$> window w);
  let pageUrl :=
    match path options with
    | Some p => Some p
    | None => if (browser : bool) then href else None
    end in
  match pageUrl with
  | None | Some "" =>
      cfg ← read config;
      if flag (debug cfg)
      then console_log Warn "GA4: Cannot track page view without path"
      else mret tt
  | Some pageUrl =>
      doc_title ← read (λ w, default "" (document_title <$> window w));
      doc_referrer ← read (λ w, default "" (document_referrer <$> window w));
      let pageTitle := default doc_title (title options) in
      let pageReferrer := default doc_referrer (referrer options) in
      event ← buildEvent GA_EVENTS.PAGE_VIEW
        (object_literal [Field "page_title" (str pageTitle);
                         Field "page_location" (str pageUrl);
                         Field "page_referrer" (str pageReferrer);
                         Spread (customParams options)])
        ENGAGEMENT;
      trackEvent event no_options
  end.

Definition trackItem (action : string) (items : list CartItem)
    (item_list_id item_list_name : option string) (value : option number)
    (customParams : gmap string JsValue) : Js unit :=
  if (length items =? 0)%nat then
    throw (new_Error ("GA4: Cannot track " +:+ action +:+ " with empty items"))
  else
    eventName ←
      (if String.eqb action ItemType.SELECT_ITEM then mret GA_EVENTS.SELECT_ITEM
       else if String.eqb action ItemType.VIEW_ITEM then mret GA_EVENTS.VIEW_ITEM
       else if String.eqb action ItemType.VIEW_ITEM_LIST
            then mret GA_EVENTS.VIEW_ITEM_LIST
       else throw (new_Error ("GA4: Unsupported cart action " +:+ action)));
    cfg ← read config;
    let eventParams :=
      object_literal [Field "items" (VItems (normalize_item <$> items));
                      Spread customParams] in
    let eventParams :=
      if String.eqb action ItemType.VIEW_ITEM then
        <["value" := VPrim (of_option_number value)]>
          (<["currency" := currency_of cfg]> eventParams)
      else
        <["item_list_name" := VPrim (of_option_string item_list_name)]>
          (<["item_list_id" := VPrim (of_option_string item_list_id)]> eventParams)
    in
    event ← buildEvent eventName eventParams ECOMMERCE;
    trackEvent event no_options.

Definition trackCart (action : string) (items : list CartItem)
    (value : option number) (customParams : gmap string JsValue) : Js unit :=
  if (length items =? 0)%nat then
    throw (new_Error ("GA4: Cannot track " +:+ action +:+ " with empty items"))
  else if missing value then
    throw (new_Error ("GA4: Cannot track " +:+ action +:+ " without value"))
  else
    eventName ←
      (if String.eqb action CartType.ADD_TO_CART then mret GA_EVENTS.ADD_TO_CART
       else if String.eqb action CartType.REMOVE_FROM_CART
            then mret GA_EVENTS.REMOVE_FROM_CART
       else if String.eqb action CartType.VIEW_CART then mret GA_EVENTS.VIEW_CART
       else if String.eqb action CartType.UPDATE_CART
            then mret GA_EVENTS.UPDATE_CART
       else throw (new_Error ("GA4: Unsupported cart action " +:+ action)));
    cfg ← read config;
    rounded ← fixed_value value;
    let eventParams :=
      object_literal [Field "currency" (currency_of cfg);
                      Field "value" (num rounded);
                      Field "items" (VItems (normalize_item <$> items));
                      Spread customParams] in
    event ← buildEvent eventName eventParams ECOMMERCE;
    trackEvent event no_options.

Definition trackWishlist (action : string) (items : list CartItem)
    (value : option number) (customParams : gmap string JsValue) : Js unit :=
  if (length items =? 0)%nat then
    throw (new_Error ("GA4: Cannot track " +:+ action +:+ " with empty items"))
  else if is_nullish value then
    throw (new_Error ("GA4: Cannot track " +:+ action +:+ " without value"))
  else
    eventName ←
      (if String.eqb action WishlistType.ADD_TO_WISHLIST
       then mret GA_EVENTS.ADD_TO_WISHLIST
       else if String.eqb action WishlistType.REMOVE_FROM_WISHLIST
            then mret GA_EVENTS.REMOVE_FROM_WISHLIST
       else if String.eqb action WishlistType.VIEW_WISHLIST
            then mret GA_EVENTS.VIEW_WISHLIST
       else if String.eqb action WishlistType.UPDATE_WISHLIST
            then mret GA_EVENTS.UPDATE_WISHLIST
       else throw (new_Error ("GA4: Unsupported wishlist action " +:+ action)));
    cfg ← read config;
    rounded ← fixed_value value;
    let eventParams :=
      object_literal [Field "currency" (currency_of cfg);
                      Field "value" (num rounded);
                      Field "items" (VItems (normalize_item <$> items));
                      Spread customParams] in
    event ← buildEvent eventName eventParams ECOMMERCE;
    trackEvent event no_options.

Definition trackShippingInfo (items : list CartItem) (value : option number)
    (shipping_tier : string) (customParams : gmap string JsValue) : Js unit :=
  if (length items =? 0)%nat then
    throw (new_Error "GA4: Cannot track shipping info with empty items")
  else if missing value then
    throw (new_Error "GA4: Cannot track shipping info without value")
  else
    cfg ← read config;
    rounded ← fixed_value value;
    let eventParams :=
      object_literal [Field "currency" (currency_of cfg);
                      Field "value" (num rounded);
                      Field "items" (VItems (normalize_item <$> items));
                      Field "shipping_tier" (str shipping_tier);
                      Spread customParams] in
    event ← buildEvent GA_EVENTS.ADD_SHIPPING_INFO eventParams ECOMMERCE;
    trackEvent event no_options.

Definition trackPaymentInfo (items : list CartItem) (value : option number)
    (payment_type : string) (customParams : gmap string JsValue) : Js unit :=
  if (length items =? 0)%nat then
    throw (new_Error "GA4: Cannot track payment info with empty items")
  else if missing value then
    throw (new_Error "GA4: Cannot track payment info without value")
  else
    cfg ← read config;
    rounded ← fixed_value value;
    let eventParams :=
      object_literal [Field "currency" (currency_of cfg);
                      Field "value" (num rounded);
                      Field "items" (VItems (normalize_item <$> items));
                      Field "payment_type" (str payment_type);
                      Spread customParams] in
    event ← buildEvent GA_EVENTS.ADD_PAYMENT_INFO eventParams ECOMMERCE;
    trackEvent event no_options.

Definition trackPurchase (transactionId : string) (value : number)
    (items : list EcommerceItem) (customParams : gmap string JsValue) : Js unit :=
  if negb (string_truthy transactionId) || le_zero value then
    throw (new_Error "GA4: Invalid purchase parameters")
  else
    cfg ← read config;
    let eventParams :=
      object_literal [Field "transaction_id" (str transactionId);
                      Field "currency" (currency_of cfg);
                      Field "value" (num (toFixed 2 value));
                      Field "items" (VItems (normalize_item <$> items));
                      Spread customParams] in
    event ← buildEvent GA_EVENTS.PURCHASE eventParams ECOMMERCE;
    trackEvent event no_options.

Definition trackRefund (transactionId : string) (value : number)
    (items : list EcommerceItem) (customParams : gmap string JsValue) : Js unit :=
  if negb (string_truthy transactionId) || le_zero value then
    throw (new_Error "GA4: Invalid refund parameters")
  else
    cfg ← read config;
    let eventParams :=
      object_literal [Field "transaction_id" (str transactionId);
                      Field "currency" (currency_of cfg);
                      Field "value" (num (toFixed 2 value));
                      Field "items" (VItems (normalize_item <$> items));
                      Spread customParams] in
    event ← buildEvent GA_EVENTS.REFUND eventParams ECOMMERCE;
    trackEvent event no_options.

(** [searchTerm?.trim()]: [None] stands for [null] or [undefined]. *)
Definition trackSearch (searchTerm : option string)
    (options : gmap string JsValue) : Js unit :=
  match trim <$> searchTerm with
  | None | Some "" =>
      cfg ← read config;
      if flag (debug cfg) then console_log Warn "GA4: Search term is required"
      else mret tt
  | Some trimmed =>
      event ← buildEvent GA_EVENTS.SEARCH
        (object_literal [Field "search_term" (str trimmed); Spread options])
        ENGAGEMENT;
      trackEvent event no_options
  end.

Definition trackPromotion (action : string) (items : list CartItem)
    (creative_name creative_slot promotion_id promotion_name : string)
    (customParams : gmap string JsValue) : Js unit :=
  if (length items =? 0)%nat then
    throw (new_Error ("GA4: Cannot track " +:+ action +:+ " with empty items"))
  else if negb (string_truthy creative_name) then
    throw (new_Error ("GA4: Cannot track " +:+ action +:+ " without creative_name"))
  else
    eventName ←
      (if String.eqb action PromotionType.VIEW_PROMOTION
       then mret GA_EVENTS.VIEW_PROMOTION
       else if String.eqb action PromotionType.SELECT_PROMOTION
            then mret GA_EVENTS.SELECT_PROMOTION
       else throw (new_Error ("GA4: Unsupported promotion action " +:+ action)));
    let eventParams :=
      object_literal [Field "creative_name" (str creative_name);
                      Field "creative_slot" (str creative_slot);
                      Field "promotion_id" (str promotion_id);
                      Field "promotion_name" (str promotion_name);
                      Field "items" (VItems (normalize_item <$> items));
                      Spread customParams] in
    event ← buildEvent eventName eventParams ECOMMERCE;
    trackEvent event no_options.

Definition trackCustomEvent (eventName : string)
    (parameters : gmap string JsValue) (category : EventCategory) : Js unit :=
  event ← buildEvent eventName parameters category;
  trackEvent event no_options.

(** [...(duration && { video_duration: duration })]: spreading a falsy
    number or [undefined] adds nothing. *)
Definition trackVideoPlay (title url : string) (duration : option number)
    (customParams : gmap string JsValue) : Js unit :=
  event ← buildEvent GA_EVENTS.VIDEO_START
    (object_literal
       [Field "video_title" (str title);
        Field "video_url" (str url);
        Spread (match duration with
                | Some d => if number_truthy d
                            then {["video_duration" := num d]} else ∅
                | None => ∅
                end);
        Spread customParams])
    ENGAGEMENT;
  trackEvent event no_options.

(** The [try] covers the evaluation of the arguments, where
    [value.toFixed] throws for a missing value. *)
Definition trackBeginCheckout (value : option number) (items : list CartItem)
    (customParams : gmap string JsValue) : Js unit :=
  try_catch
    (cfg ← read config;
     rounded ← fixed_value value;
     event ← buildEvent GA_EVENTS.BEGIN_CHECKOUT
       (object_literal [Field "currency" (currency_of cfg);
                        Field "value" (num rounded);
                        Field "items" (VItems (normalize_item <$> items));
                        Spread customParams])
       ECOMMERCE;
     trackEvent event no_options)
    (λ error,
       cfg ← read config;
       if flag (debug cfg)
       then console_log Err "GA4: Error tracking begin_checkout"
       else mret tt).

Definition trackTiming (category variable : string) (value : number)
    (label : option string) : Js unit :=
  event ← buildEvent "timing_complete"
    (object_literal
       [Field "name" (str variable);
        Field "value" (num (Math_round value));
        Field "timing_category" (str category);
        Spread (match label with
                | Some l => if string_truthy l
                            then {["event_label" := str l]} else ∅
                | None => ∅
                end)])
    PERFORMANCE;
  trackEvent event no_options.

End ObjectParam.

(** ** [core/GATracker.ts], the oldest revision *)

Module Legacy.

Definition buildEvent (name : string) (params : gmap string JsValue)
    (category : EventCategory) : Js GAEvent :=
  now ← read clock;
  mret {| event_name := name; event_parameters := params;
          timestamp := Some now; event_category := category |}.

Definition trackPageView (options : PageViewOptions) : Js unit :=
  browser ← read isBrowser;
  href ← read (λ w, location_href <$> window w);
  let pageUrl :=
    match path options with
    | Some p => Some p
    | None => if (browser : bool) then href else None
    end in
  match pageUrl with
  | None | Some "" =>
      cfg ← read config;
      if flag (debug cfg)
      then console_log Warn "GA4: Cannot track page view without path"
      else mret tt
  | Some pageUrl =>
      doc_title ← read (λ w, default "" (document_title <$> window w));
      doc_referrer ← read (λ w, default "" (document_referrer <$> window w));
      let pageTitle := default doc_title (title options) in
      let pageReferrer := default doc_referrer (referrer options) in
      event ← buildEvent GA_EVENTS.PAGE_VIEW
        (object_literal [Field "page_title" (str pageTitle);
                         Field "page_location" (str pageUrl);
                         Field "page_referrer" (str pageReferrer);
                         Spread (customParams options)])
        ENGAGEMENT;
      trackEvent event no_options
  end.

(** Here the callback of [items.map] is
    [{ quantity: 1, ...item, price: +item.price.toFixed(2) }]. *)
Definition with_quantity_one (item : CartItem) : gmap string Prim :=
  object_literal [Field "quantity" one;
                  Spread (own_properties item);
                  Field "price" (PNum (toFixed 2 (price item)))].

Definition trackCart (action : string) (items : list CartItem)
    (value : option number) (customParams : gmap string JsValue) : Js unit :=
  if (length items =? 0)%nat then
    throw (new_Error ("GA4: Cannot track " +:+ action +:+ " with empty items"))
  else
    eventName ←
      (if String.eqb action CartType.ADD_TO_CART then mret GA_EVENTS.ADD_TO_CART
       else if String.eqb action CartType.REMOVE_FROM_CART
            then mret GA_EVENTS.REMOVE_FROM_CART
       else if String.eqb action CartType.VIEW_CART then mret GA_EVENTS.VIEW_CART
       else throw (new_Error ("GA4: Unsupported cart action " +:+ action)));
    cfg ← read config;
    let eventParams :=
      object_literal
        [Field "currency" (currency_of cfg);
         Field "items" (VItems (with_quantity_one <$> items));
         Spread customParams] in
    let eventParams :=
      match value with
      | Some n => <["value" := num (toFixed 2 n)]> eventParams
      | None => eventParams
      end in
    event ← buildEvent eventName eventParams ECOMMERCE;
    trackEvent event no_options.

(** [...(items.length && { items })]: spreading [0] adds nothing. *)
Definition trackPurchase (transactionId : string) (value : number)
    (items : list EcommerceItem) (options : gmap string JsValue) : Js unit :=
  if negb (string_truthy transactionId) || le_zero value then
    throw (new_Error "GA4: Invalid purchase parameters")
  else
    cfg ← read config;
    event ← buildEvent GA_EVENTS.PURCHASE
      (object_literal
         [Field "transaction_id" (str transactionId);
          Field "value" (num (toFixed 2 value));
          Field "currency" (currency_of cfg);
          Spread (if (length items =? 0)%nat then ∅
                  else {["items" := VItems (own_properties <$> items)]});
          Spread options])
      ECOMMERCE;
    trackEvent event no_options.

Definition trackSearch (searchTerm : option string)
    (options : gmap string JsValue) : Js unit :=
  match trim <$> searchTerm with
  | None | Some "" =>
      cfg ← read config;
      if flag (debug cfg) then console_log Warn "GA4: Search term is required"
      else mret tt
  | Some trimmed =>
      event ← buildEvent GA_EVENTS.SEARCH
        (object_literal [Field "search_term" (str trimmed); Spread options])
        ENGAGEMENT;
      trackEvent event no_options
  end.

(** No [try] here: a missing value makes [value.toFixed] throw. *)
Definition trackBeginCheckout (value : option number) (items : list CartItem)
    (customParams : gmap string JsValue) : Js unit :=
  cfg ← read config;
  rounded ← fixed_value value;
  event ← buildEvent GA_EVENTS.BEGIN_CHECKOUT
    (object_literal [Field "currency" (currency_of cfg);
                     Field "value" (num rounded);
                     Field "items" (VItems (own_properties <$> items));
                     Spread customParams])
    ECOMMERCE;
  trackEvent event no_options.

End Legacy.

(** ** The public surface as data *)

(** A call of one of the e-commerce builders with its arguments. *)
Inductive EcommerceCall :=
| CallItem (action : string) (items : list CartItem)
    (item_list_id item_list_name : option string) (value : option number)
    (customParams : gmap string JsValue)
| CallCart (action : string) (items : list CartItem) (value : option number)
    (customParams : gmap string JsValue)
| CallWishlist (action : string) (items : list CartItem) (value : option number)
    (customParams : gmap string JsValue)
| CallShippingInfo (items : list CartItem) (value : option number)
    (shipping_tier : string) (customParams : gmap string JsValue)
| CallPaymentInfo (items : list CartItem) (value : option number)
    (payment_type : string) (customParams : gmap string JsValue)
| CallPurchase (transactionId : string) (value : number)
    (items : list EcommerceItem) (customParams : gmap string JsValue)
| CallRefund (transactionId : string) (value : number)
    (items : list EcommerceItem) (customParams : gmap string JsValue)
| CallPromotion (action : string) (items : list CartItem)
    (creative_name creative_slot promotion_id promotion_name : string)
    (customParams : gmap string JsValue).

Definition call_items (c : EcommerceCall) : list EcommerceItem :=
  match c with
  | CallItem _ items _ _ _ _ | CallCart _ items _ _ | CallWishlist _ items _ _
  | CallShippingInfo items _ _ _ | CallPaymentInfo items _ _ _
  | CallPurchase _ _ items _ | CallRefund _ _ items _
  | CallPromotion _ items _ _ _ _ _ => items
  end.

Definition call_customParams (c : EcommerceCall) : gmap string JsValue :=
  match c with
  | CallItem _ _ _ _ _ cp | CallCart _ _ _ cp | CallWishlist _ _ _ cp
  | CallShippingInfo _ _ _ cp | CallPaymentInfo _ _ _ cp
  | CallPurchase _ _ _ cp | CallRefund _ _ _ cp
  | CallPromotion _ _ _ _ _ _ cp => cp
  end.

Definition perform_positional (c : EcommerceCall) : Js unit :=
  match c with
  | CallItem a items id name v cp => Positional.trackItem a items id name v cp
  | CallCart a items v cp => Positional.trackCart a items v cp
  | CallWishlist a items v cp => Positional.trackWishlist a items v cp
  | CallShippingInfo items v tier cp => Positional.trackShippingInfo items v tier cp
  | CallPaymentInfo items v ty cp => Positional.trackPaymentInfo items v ty cp
  | CallPurchase tid v items cp => Positional.trackPurchase tid v items cp
  | CallRefund tid v items cp => Positional.trackRefund tid v items cp
  | CallPromotion a items cn cs pid pn cp =>
      Positional.trackPromotion a items cn cs pid pn cp
  end.

Definition perform_object_param (c : EcommerceCall) : Js unit :=
  match c with
  | CallItem a items id name v cp => ObjectParam.trackItem a items id name v cp
  | CallCart a items v cp => ObjectParam.trackCart a items v cp
  | CallWishlist a items v cp => ObjectParam.trackWishlist a items v cp
  | CallShippingInfo items v tier cp => ObjectParam.trackShippingInfo items v tier cp
  | CallPaymentInfo items v ty cp => ObjectParam.trackPaymentInfo items v ty cp
  | CallPurchase tid v items cp => ObjectParam.trackPurchase tid v items cp
  | CallRefund tid v items cp => ObjectParam.trackRefund tid v items cp
  | CallPromotion a items cn cs pid pn cp =>
      ObjectParam.trackPromotion a items cn cs pid pn cp
  end.

(** ** Observations *)

(** The reporting channel is ready for a dispatch. *)
Definition ready (w : World) : bool :=
  negb (flag (disableGA (config w))) && isGtagAvailable w.

(** The computation ends by handing the event [e] to [trackEvent]. *)
Definition dispatches (m : Js unit) (w : World) (e : GAEvent) : Prop :=
  m w = trackEvent e no_options w.

(** The calls of the reporting function made between two worlds. *)
Definition reported (w w' : World) : list GtagCall :=
  drop (length (gtag_calls w)) (gtag_calls w').

(** [n > 0] on numbers. *)
Definition gt_zero (n : number) : bool :=
  match n with
  | NaN => false
  | Infinity negative => negb negative
  | Finite q => negb (Qle_bool q 0)
  end.

(** [r] has two decimals and is the nearest such number to [q], the one
    above on a tie. *)
Definition half_up_cents (q r : Q) : Prop :=
  ∃ n : Z, (r == inject_Z n / 100 ∧ r - (1 # 200) <= q ∧ q < r + (1 # 200))%Q.

(** The quantity of a dispatched item is a number not below one. *)
Definition quantity_at_least_one (out : gmap string Prim) : bool :=
  match out !! "quantity" with
  | Some (PNum (Finite q)) => Qle_bool 1 q
  | Some (PNum (Infinity negative)) => negb negative
  | _ => false
  end.

(** The operations that move an instance: calls of its methods, the
    events of the injected script, and a drain of the microtask queue. *)
Inductive Operation :=
| OpInit
| OpDestroy
| OpTrackEvent (event : GAEvent) (options : TrackingOptions)
| OpScriptLoad (k : nat)
| OpScriptError (k : nat)
| OpMicrotasks.

Definition run_operation (op : Operation) : Js unit :=
  match op with
  | OpInit => init;; mret tt
  | OpDestroy => destroy
  | OpTrackEvent event options => trackEvent event options
  | OpScriptLoad k => script_onload k
  | OpScriptError k => script_onerror k
  | OpMicrotasks => run_microtasks
  end.

Definition after (ops : list Operation) (w : World) : World :=
  foldl (λ w op, snd (run_operation op w)) w ops.

(** The worlds an instance can be in: constructed in some environment,
    then moved by operations. *)
Definition reachable (w : World) : Prop :=
  ∃ env cfg w0 ops, new env cfg = Normal w0 ∧ after ops w0 = w.

(** ** Sample inputs *)

Definition plain_page : Window :=
  {| location_href := "https://shop.example/cart"; document_title := "Cart";
     document_referrer := ""; gtag := None; dataLayer := None; head := [] |}.

Definition browser : Environment :=
  {| env_window := Some plain_page; env_clock := 1700000000000;
     env_development := false |}.

Definition server : Environment :=
  {| env_window := None; env_clock := 1700000000000; env_development := false |}.

Definition tagged_browser : Environment :=
  {| env_window := Some (set_gtag (Some (ForeignGtag None)) plain_page);
     env_clock := 1700000000000; env_development := false |}.

Definition sample_config : GA4Config :=
  {| measurementId := "G-ABCDEFGHIJ"; debug := Some false;
     currency := Some "USD"; disableGA := None; customConfig := None |}.

Definition disabled_config : GA4Config :=
  {| measurementId := ""; debug := None; currency := None;
     disableGA := Some true; customConfig := None |}.

Definition world_of (env : Environment) (cfg : GA4Config) : World :=
  snd (constructor cfg (field_initializers env)).

Definition shirt : EcommerceItem :=
  {| item_id := "SKU_1"; item_name := "Shirt"; price := Finite (19999 # 1000);
     more := ∅ |}.

Definition with_quantity (q : Q) (item : EcommerceItem) : EcommerceItem :=
  {| item_id := item_id item; item_name := item_name item; price := price item;
     more := <["quantity" := PNum (Finite q)]> (more item) |}.

(** What the builders promise about a dispatched item [out] made from
    [item]: the price is rounded to two decimals (half-up for a price
    that is not negative), a missing quantity becomes one, a quantity
    that is present and truthy is kept, and every other property is
    passed through. *)
Definition normalized (item : EcommerceItem) (out : gmap string Prim) : Prop :=
  out !! "price" = Some (PNum (toFixed 2 (price item))) ∧
  (∀ q, price item = Finite q → (0 <= q)%Q →
        ∃ r, out !! "price" = Some (PNum (Finite r)) ∧ half_up_cents q r) ∧
  (more item !! "quantity" = None → out !! "quantity" = Some one) ∧
  (∀ q, more item !! "quantity" = Some q → truthy q = true →
        out !! "quantity" = Some q) ∧
  (more item !! "quantity" = None ∨ quantity_at_least_one (more item) = true →
   quantity_at_least_one out = true) ∧
  (∀ k, k ≠ "price" → k ≠ "quantity" → out !! k = own_properties item !! k).

(** The computation completes normally and does not call the reporting
    function. *)
Definition silent (m : Js unit) (w : World) : Prop :=
  fst (m w) = Normal tt ∧ gtag_calls (snd (m w)) = gtag_calls w.

(** The purchase event of order ORDER_1 with value 25.5. *)
Definition purchase_of_order_1 (e : GAEvent) : Prop :=
  event_name e = "purchase" ∧
  event_parameters e !! "transaction_id" = Some (str "ORDER_1") ∧
  event_parameters e !! "value" = Some (num (Finite (51 # 2))).

(** The payload of an e-commerce builder: the call throws and leaves the
    world as it was, or it hands over an event with the normalized
    items. *)
Definition normalizing (m : Js unit) (c : EcommerceCall) (w : World) : Prop :=
  (∃ err, m w = (Throw err, w)) ∨
  (∃ e, dispatches m w e ∧
        (call_customParams c !! "items" = None →
         event_parameters e !! "items" =
           Some (VItems (normalize_item <$> call_items c)))).


(** ** Further observations *)

(** The page, the configuration and the counters are the same in both
    worlds. *)
Definition same_page (w w' : World) : Prop :=
  window w' = window w ∧ config w' = config w ∧
  load_attempts w' = load_attempts w ∧ gtag_calls w' = gtag_calls w.

(** The script elements in the document head. *)
Definition scripts (w : World) : list Script :=
  match window w with Some win => head win | None => [] end.

(** The calls that [configureGA] makes, in order. *)
Definition configuration_calls (w : World) : list GtagCall :=
  [GtagJs (clock w);
   GtagConfig (measurementId (config w)) (debug (config w))] ++
  match customConfig (config w) with
  | Some custom => [GtagConsent custom]
  | None => []
  end.

(** The script element that [loadGoogleAnalytics] appends. *)
Definition backend_script (w : World) : Script :=
  {| script_src := "https://www.googletagmanager.com/gtag/js?id=" +:+
                   measurementId (config w);
     script_promise := length (promises w) |}.

(** What an [init] that was suspended on a promise settled as [s] does
    to the state and to its own promise. *)
Definition outcome_state (s : Settlement) : InitializationState :=
  match s with Rejected _ => FAILED | _ => INITIALIZED end.

Definition outcome_promise (s : Settlement) : Settlement :=
  match s with
  | Rejected cause =>
      Rejected (new_Error ("GA4 initialization failed: " +:+ message cause))
  | _ => Fulfilled
  end.

(** What a load attempt changes of the page: whether there is one, its
    script elements, whether a reporting function is installed, and the
    count of attempts. *)
Definition page_shape (w : World) : bool * list Script * bool * nat :=
  (isBrowser w, scripts w, isGtagAvailable w, load_attempts w).

(** One round of initialization: a call of [init], then the microtasks. *)
Definition init_round : list Operation := [OpInit; OpMicrotasks].

Fixpoint init_rounds (n : nat) : list Operation :=
  match n with
  | O => []
  | S n => init_round ++ init_rounds n
  end.

Definition valid_cart_action (a : string) : Prop :=
  a ∈ [CartType.ADD_TO_CART; CartType.REMOVE_FROM_CART; CartType.VIEW_CART;
       CartType.UPDATE_CART].

Definition valid_item_action (a : string) : Prop :=
  a ∈ [ItemType.SELECT_ITEM; ItemType.VIEW_ITEM; ItemType.VIEW_ITEM_LIST].

Definition valid_promotion_action (a : string) : Prop :=
  a ∈ [PromotionType.VIEW_PROMOTION; PromotionType.SELECT_PROMOTION].

(** The computation throws [err] and leaves the world as it was. *)
Definition refuses (m : Js unit) (w : World) (msg : string) : Prop :=
  m w = (Throw (new_Error msg), w).

(** The keys that [trackItem] assigns after the custom parameters have
    been spread. *)
Definition assigned_last (c : EcommerceCall) : list string :=
  match c with
  | CallItem action _ _ _ _ _ =>
      if String.eqb action ItemType.VIEW_ITEM then ["currency"; "value"]
      else ["item_list_id"; "item_list_name"]
  | _ => []
  end.

(** The contract of an e-commerce builder towards the custom parameters:
    the call throws, or the event it hands over carries every custom
    parameter whose key is not assigned afterwards. *)
Definition keeps_custom (m : Js unit) (c : EcommerceCall) (w : World) : Prop :=
  (∃ err, m w = (Throw err, w)) ∨
  (∃ e, dispatches m w e ∧
        ∀ k v, call_customParams c !! k = Some v → k ∉ assigned_last c →
               event_parameters e !! k = Some v).


(** An e-commerce event under the name [name] whose currency is the
    configured one and whose value is [n] rounded to two decimals, as far
    as the custom parameters [cp] do not say otherwise. *)
Definition priced_event (name : string) (n : number)
    (cp : gmap string JsValue) (w : World) (e : GAEvent) : Prop :=
  event_name e = name ∧ event_category e = ECOMMERCE ∧
  (cp !! "currency" = None →
   event_parameters e !! "currency" = Some (currency_of (config w))) ∧
  (cp !! "value" = None →
   event_parameters e !! "value" = Some (num (toFixed 2 n))).

(** The world after the handler of [trackBeginCheckout] has run: the
    error is logged in debug mode and dropped otherwise. *)
Definition checkout_error_logged (w : World) : World :=
  if flag (debug (config w))
  then set_console
         (console w ++ [(Err, "GA4: Error tracking begin_checkout")]) w
  else w.




(** A page whose reporting function throws, as one replaced by a content
    blocker may. *)
Definition blocked_browser : Environment :=
  {| env_window :=
       Some (set_gtag (Some (ForeignGtag (Some (new_Error "blocked"))))
               plain_page);
     env_clock := 1700000000000; env_development := false |}.

Definition sample_event : GAEvent :=
  {| event_name := "level_up";
     event_parameters := {["level" := num (Finite 5)]};
     timestamp := None; event_category := ENGAGEMENT |}.


(** * Properties *)

(** ** The value model at work *)

Example toFixed_keeps_two_decimals :
  toFixed 2 (Finite (51 # 2)) = Finite (51 # 2).
Proof. reflexivity. Qed.

Example toFixed_rounds_half_up :
  toFixed 2 (Finite (9005 # 1000)) = Finite (901 # 100).
Proof. reflexivity. Qed.

Example toFixed_rounds_down :
  toFixed 2 (Finite (19994 # 1000)) = Finite (1999 # 100).
Proof. reflexivity. Qed.

Example toFixed_rounds_the_magnitude :
  toFixed 2 (Finite (- 9005 # 1000)) = Finite (- 901 # 100).
Proof. reflexivity. Qed.

Example toFixed_of_NaN : toFixed 2 NaN = NaN.
Proof. reflexivity. Qed.

Example trim_both_ends : trim "  red shoes  " = "red shoes".
Proof. reflexivity. Qed.

Example trim_white_space_only : trim "   " = "".
Proof. reflexivity. Qed.

Example measurement_id_shapes :
  validateMeasurementId "G-ABCDEFGHIJ" = true ∧
  validateMeasurementId "G-ABC1234567" = true ∧
  validateMeasurementId "G-abcdefghij" = false ∧
  validateMeasurementId "G-ABCDEFGHIJK" = false ∧
  validateMeasurementId "" = false.
Proof. repeat split; reflexivity. Qed.

Ltac js_unfold :=
  unfold mbind, mret, Js_bind, Js_ret, bind, ret, read, modify, throw,
    try_catch in *.

(** ** The dispatch path *)

Lemma trackEvent_returns (e : GAEvent) (o : TrackingOptions) (w : World) :
  fst (trackEvent e o w) = Normal tt.
Proof.
  unfold trackEvent, console_log, queueMicrotask, call_gtag. js_unfold.
  destruct (flag (disableGA (config w))); [reflexivity|].
  destruct (isGtagAvailable w); [|reflexivity]. cbn.
  destruct (window w) as [win|]; cbn.
  - destruct (gtag win) as [[|[err|]]|]; cbn;
      try destruct (dataLayer win); cbn; try destruct (onError o); reflexivity.
  - destruct (onError o); reflexivity.
Qed.

Lemma literal_of_two_spreads {V} (a b : gmap string V) :
  object_literal [Spread a; Spread b] = b ∪ a.
Proof.
  unfold object_literal. cbn. by rewrite (right_id_L ∅ (∪)).
Qed.

Lemma trackEvent_calls (e : GAEvent) (o : TrackingOptions) (w : World) :
  gtag_calls (snd (trackEvent e o w)) =
  gtag_calls w ++
    (if ready w
     then [GtagEvent (event_name e) (customParameters o ∪ event_parameters e)]
     else []).
Proof.
  unfold ready, trackEvent, console_log, queueMicrotask, call_gtag.
  rewrite literal_of_two_spreads. js_unfold.
  destruct (flag (disableGA (config w))); cbn; [by rewrite app_nil_r|].
  unfold isGtagAvailable, isBrowser.
  destruct (window w) as [win|] eqn:Hwin; cbn; [|by rewrite app_nil_r].
  destruct (gtag win) as [[|[err|]]|] eqn:Hg; cbn; rewrite ?Hwin; cbn;
    rewrite ?Hg; cbn;
    try destruct (dataLayer win); cbn; try destruct (onError o); cbn;
    by rewrite ?app_nil_r.
Qed.

Lemma trackEvent_keeps_state (e : GAEvent) (o : TrackingOptions) (w : World) :
  initializationState (snd (trackEvent e o w)) = initializationState w ∧
  config (snd (trackEvent e o w)) = config w ∧
  promises (snd (trackEvent e o w)) = promises w.
Proof.
  unfold trackEvent, console_log, queueMicrotask, call_gtag. js_unfold.
  destruct (flag (disableGA (config w))); [done|].
  destruct (isGtagAvailable w); [|done]. cbn.
  destruct (window w) as [win|]; cbn.
  - destruct (gtag win) as [[|[err|]]|]; cbn;
      try destruct (dataLayer win); cbn; try destruct (onError o); done.
  - destruct (onError o); done.
Qed.

(** C3: dispatch never breaks the caller.  For every event and every
    options bag, when [disableGA] is set or the global reporting function
    is not available, [trackEvent] completes normally and leaves the
    reporting function uncalled (the window, the queued callbacks and the
    initialization state are as before); and whenever [disableGA] is set,
    [isInitialized] answers [true]. *)
Theorem trackEvent_never_breaks_caller
    (event : GAEvent) (options : TrackingOptions) (w : World) :
  (flag (disableGA (config w)) = true ∨ isGtagAvailable w = false →
   ∃ w', trackEvent event options w = (Normal tt, w') ∧
         gtag_calls w' = gtag_calls w ∧ window w' = window w ∧
         microtasks w' = microtasks w ∧
         initializationState w' = initializationState w) ∧
  (flag (disableGA (config w)) = true → isInitialized w = true).
Proof.
  split.
  - intros H. unfold trackEvent, console_log. js_unfold.
    destruct (flag (disableGA (config w))) eqn:Hd.
    + by exists w.
    + destruct H as [H|H]; [done|]. rewrite H. cbn. eexists. split; [reflexivity|done].
  - intros H. unfold isInitialized. by rewrite H.
Qed.

Lemma trackEvent_never_breaks_caller_witness :
  let event := {| event_name := "purchase"; event_parameters := ∅;
                  timestamp := None; event_category := ECOMMERCE |} in
  (∃ w', trackEvent event no_options (world_of browser disabled_config)
           = (Normal tt, w') ∧
         gtag_calls w' = gtag_calls (world_of browser disabled_config)) ∧
  isInitialized (world_of browser disabled_config) = true.
Proof.
  intros event.
  destruct (trackEvent_never_breaks_caller event no_options
              (world_of browser disabled_config)) as [H1 H2].
  split.
  - destruct H1 as (w' & Hrun & Hcalls & _); [left; reflexivity|].
    exists w'. split; assumption.
  - apply H2. reflexivity.
Defined.

(** ** Construction *)

Lemma valid_id_not_empty (id : string) :
  validateMeasurementId id = true → string_truthy id = true.
Proof. destruct id; [discriminate|reflexivity]. Qed.

(** C2: construction with an empty [measurementId] and [disableGA] unset
    or false throws the configuration error; with a measurement id of the
    shape [G-] plus ten capitals or digits, or with [disableGA] set
    whatever the id, construction succeeds, keeps the configuration and
    starts in [NOT_INITIALIZED]. *)
Theorem construction_contract (env : Environment) (cfg : GA4Config) :
  (measurementId cfg = "" → flag (disableGA cfg) = false →
   new env cfg = Throw (new_Error "GA4 measurementId is required")) ∧
  (validateMeasurementId (measurementId cfg) = true ∨
   flag (disableGA cfg) = true →
   ∃ w, new env cfg = Normal w ∧
        getInitializationState w = NOT_INITIALIZED ∧ config w = cfg).
Proof.
  unfold new, constructor, validateConfig. js_unfold. cbn. split.
  - intros Hid Hd. rewrite Hd, Hid. reflexivity.
  - intros H. destruct (flag (disableGA cfg)) eqn:Hd.
    + eexists. split; [reflexivity|done].
    + destruct H as [H|H]; [|done].
      rewrite (valid_id_not_empty _ H). cbn. eexists. split; [reflexivity|done].
Qed.

Lemma construction_contract_witness :
  new browser {| measurementId := ""; debug := None; currency := None;
                 disableGA := Some false; customConfig := None |}
    = Throw (new_Error "GA4 measurementId is required") ∧
  (∃ w, new browser sample_config = Normal w ∧
        getInitializationState w = NOT_INITIALIZED) ∧
  (∃ w, new server disabled_config = Normal w ∧
        getInitializationState w = NOT_INITIALIZED).
Proof.
  split; [|split].
  - apply (construction_contract browser); reflexivity.
  - destruct (construction_contract browser sample_config) as [_ H].
    destruct H as (w & Hnew & Hst & _); [left; reflexivity|].
    exists w. split; assumption.
  - destruct (construction_contract server disabled_config) as [_ H].
    destruct H as (w & Hnew & Hst & _); [right; reflexivity|].
    exists w. split; assumption.
Defined.

(** ** Initialization *)

Lemma init_initializing_same_promise (w : World) (p : PromiseId) :
  initializationState w = INITIALIZING → isInitialized w = false →
  gtagLoadPromise w = Some p → init w = (Normal p, w).
Proof.
  intros Hst Hready Hp. unfold init. js_unfold.
  rewrite Hready, Hst. rewrite bool_decide_eq_true_2 by done. cbv beta.
  rewrite Hp. reflexivity.
Qed.

Lemma init_initializing_no_second_load (w : World) :
  initializationState w = INITIALIZING →
  load_attempts (snd (init w)) = load_attempts w ∧
  initializationState (snd (init w)) = INITIALIZING.
Proof.
  intros Hst. unfold init, Promise_resolve, new_promise. js_unfold.
  destruct (isInitialized w); [done|]. rewrite Hst.
  rewrite bool_decide_eq_true_2 by done. cbv beta.
  destruct (gtagLoadPromise w); by rewrite ?Hst.
Qed.

Lemma isInitialized_false (w : World) :
  isInitialized w = false →
  flag (disableGA (config w)) = false ∧
  initializationState w ≠ INITIALIZED ∧ isGtagAvailable w = false.
Proof.
  unfold isInitialized. destruct (flag (disableGA (config w))); [done|].
  intros [H1 H2]%orb_false_iff. apply bool_decide_eq_false in H1. done.
Qed.

Lemma first_init_starts_one_load (w : World) :
  isInitialized w = false → initializationState w ≠ INITIALIZING →
  initializationState (snd (init w)) = INITIALIZING ∧
  load_attempts (snd (init w)) = S (load_attempts w).
Proof.
  intros Hready Hstate.
  destruct (isInitialized_false w Hready) as (Hd & _ & Hg).
  assert (Hready' : isInitialized (set_initializationState INITIALIZING w) = false).
  { unfold isInitialized. cbn. rewrite Hd. exact Hg. }
  unfold init. js_unfold. rewrite Hready.
  rewrite bool_decide_eq_false_2 by done. cbv beta.
  unfold loadGoogleAnalytics. js_unfold. rewrite Hready'.
  unfold new_Promise, new_promise, append_script, configureGA, call_gtag, settle.
  js_unfold. cbn.
  destruct (window w) as [win|]; cbn; [|by repeat case_match].
  destruct (customConfig (config w)); cbn; by repeat case_match.
Qed.

Lemma ready_init_is_idle (w : World) :
  isInitialized w = true →
  load_attempts (snd (init w)) = load_attempts w ∧
  isInitialized (snd (init w)) = true.
Proof.
  intros Hready. unfold init, Promise_resolve, new_promise. js_unfold.
  rewrite Hready. done.
Qed.

(** Two calls of [init] in a row make at most one load attempt, and
    exactly one when the first call finds the instance neither ready nor
    initializing. *)
Lemma two_inits_one_load (w : World) :
  initializationState w ≠ INITIALIZING →
  load_attempts (snd (init (snd (init w)))) =
  (if isInitialized w then load_attempts w else S (load_attempts w)).
Proof.
  intros Hstate. destruct (isInitialized w) eqn:Hready.
  - destruct (ready_init_is_idle w Hready) as [H1 H2].
    destruct (ready_init_is_idle _ H2) as [H3 _]. congruence.
  - destruct (first_init_starts_one_load w Hready Hstate) as [H1 H2].
    destruct (init_initializing_no_second_load _ H1) as [H3 _]. congruence.
Qed.

Lemma fresh_promise_state (w : World) (s : Settlement) :
  state_of (snd (new_promise s w)) (length (promises w)) = s.
Proof.
  unfold state_of, new_promise. cbn.
  by rewrite lookup_app_r, Nat.sub_diag by done.
Qed.

(** In a browser the first [init] installs the reporting function before
    it suspends, so a second [init] made while the state is
    [INITIALIZING] finds the instance ready and answers with a fresh,
    fulfilled promise that is not the pending load promise. *)
Lemma browser_reentrant_init_is_fulfilled (w : World) :
  isBrowser w = true → isInitialized w = false →
  initializationState w ≠ INITIALIZING →
  let w1 := snd (init w) in
  initializationState w1 = INITIALIZING ∧
  isInitialized w1 = true ∧
  gtagLoadPromise w1 = Some (length (promises w)) ∧
  state_of w1 (length (promises w)) = Pending ∧
  ∃ p, fst (init w1) = Normal p ∧
       state_of (snd (init w1)) p = Fulfilled ∧
       gtagLoadPromise w1 ≠ Some p.
Proof.
  intros Hbrowser Hready Hstate w1.
  destruct (isInitialized_false w Hready) as (Hd & _ & Hg).
  assert (Hready' : isInitialized (set_initializationState INITIALIZING w) = false).
  { unfold isInitialized. cbn. rewrite Hd. exact Hg. }
  assert (Hw1 : initializationState w1 = INITIALIZING ∧
                isInitialized w1 = true ∧
                gtagLoadPromise w1 = Some (length (promises w)) ∧
                state_of w1 (length (promises w)) = Pending ∧
                length (promises w1) = S (S (length (promises w)))).
  { subst w1. unfold isBrowser in Hbrowser.
    unfold init. js_unfold. rewrite Hready.
    rewrite bool_decide_eq_false_2 by done. cbv beta.
    unfold loadGoogleAnalytics. js_unfold. rewrite Hready'.
    unfold new_Promise, new_promise, append_script, configureGA, call_gtag,
      settle. js_unfold. cbn.
    destruct (window w) as [win|]; [|done]. cbn.
    unfold isInitialized, isGtagAvailable, isBrowser, state_of.
    destruct (customConfig (config w)); cbn; rewrite Hd; cbn;
      rewrite !length_app; cbn;
      rewrite <- !(assoc_L (++)); cbn;
      rewrite list_lookup_middle by done; cbn;
      repeat split; try done; lia. }
  destruct Hw1 as (Hst & Hrdy & Hp & Hpend & Hlen).
  split; [exact Hst|]. split; [exact Hrdy|]. split; [exact Hp|].
  split; [exact Hpend|].
  exists (length (promises w1)).
  unfold init, Promise_resolve. js_unfold. rewrite Hrdy.
  split; [reflexivity|]. split; [apply fresh_promise_state|].
  rewrite Hp, Hlen. intros [= H]. lia.
Qed.

(** C1, the code at a failing input.  In a browser without a reporting
    function yet, [init] is called twice in a row and then the script
    fails to load.  The second call starts while the state is
    [INITIALIZING], but [isInitialized] already answers [true], since
    [configureGA] has installed [window.gtag]: the call returns a fresh
    promise that is fulfilled at once, not the pending load promise.  One
    load attempt is made; the first caller's promise is rejected and the
    state ends in [FAILED], while the second caller has seen a
    fulfilment. *)
Theorem reentrant_init_returns_resolved_promise :
  let w0 := world_of browser sample_config in
  let first := init w0 in
  let second := init (snd first) in
  let w_end := after [OpMicrotasks; OpScriptError 0; OpMicrotasks] (snd second) in
  getInitializationState (snd first) = INITIALIZING ∧
  isInitialized (snd first) = true ∧
  fst first = Normal 1%nat ∧ fst second = Normal 2%nat ∧
  gtagLoadPromise (snd second) = Some 0%nat ∧
  state_of (snd second) 1 = Pending ∧
  state_of (snd second) 2 = Fulfilled ∧
  load_attempts w_end = 1%nat ∧
  getInitializationState w_end = FAILED ∧
  state_of w_end 1 =
    Rejected (new_Error
      "GA4 initialization failed: Failed to load Google Analytics script") ∧
  state_of w_end 2 = Fulfilled.
Proof. vm_compute. repeat split; reflexivity. Qed.

(** In a host without [window] the readiness check stays false, the
    second call does reach the [INITIALIZING] branch and gets the load
    promise itself; both callers see a rejection and the state ends in
    [FAILED] after one load attempt. *)
Example reentrant_init_without_window :
  let w0 := world_of server sample_config in
  let first := init w0 in
  let second := init (snd first) in
  let w_end := after [OpMicrotasks] (snd second) in
  getInitializationState (snd first) = INITIALIZING ∧
  isInitialized (snd first) = false ∧
  gtagLoadPromise (snd first) = Some 0%nat ∧
  fst first = Normal 1%nat ∧ fst second = Normal 0%nat ∧
  load_attempts w_end = 1%nat ∧
  getInitializationState w_end = FAILED ∧
  state_of w_end 0 =
    Rejected {| error_class := ReferenceError;
                message := "document is not defined" |} ∧
  state_of w_end 1 =
    Rejected (new_Error "GA4 initialization failed: document is not defined").
Proof. vm_compute. repeat split; reflexivity. Qed.

Lemma reachable_step (op : Operation) (w : World) :
  reachable w → reachable (snd (run_operation op w)).
Proof.
  intros (env & cfg & w0 & ops & Hnew & <-).
  exists env, cfg, w0, (ops ++ [op]). split; [exact Hnew|].
  unfold after. by rewrite foldl_app.
Qed.

Lemma reachable_constructed (env : Environment) (cfg : GA4Config) (w : World) :
  new env cfg = Normal w → reachable w.
Proof. intros H. by exists env, cfg, w, []. Qed.

(** C9: readiness and the state enum can disagree.  There are reachable
    worlds in which [isInitialized] answers [true] while
    [getInitializationState] answers [NOT_INITIALIZED]: an instance with
    [disableGA] set; an instance in a page that already has a reporting
    function; and an instance right after [destroy], which resets the
    state but leaves the installed reporting function in place.  Hence
    readiness is not equivalent to the state being [INITIALIZED]. *)
Theorem readiness_differs_from_state :
  (∃ w, reachable w ∧ flag (disableGA (config w)) = true ∧
        isInitialized w = true ∧ getInitializationState w = NOT_INITIALIZED) ∧
  (∃ w, reachable w ∧ flag (disableGA (config w)) = false ∧
        isGtagAvailable w = true ∧
        isInitialized w = true ∧ getInitializationState w = NOT_INITIALIZED) ∧
  (∃ w, reachable w ∧ flag (disableGA (config w)) = false ∧
        getInitializationState w = INITIALIZED ∧
        reachable (snd (destroy w)) ∧
        isInitialized (snd (destroy w)) = true ∧
        getInitializationState (snd (destroy w)) = NOT_INITIALIZED) ∧
  ¬ (∀ w, reachable w →
          isInitialized w = true ↔ getInitializationState w = INITIALIZED).
Proof.
  assert (Hext : reachable (world_of tagged_browser sample_config))
    by (by apply (reachable_constructed tagged_browser sample_config)).
  split; [|split; [|split]].
  - exists (world_of browser disabled_config). split; [|by vm_compute].
    by apply (reachable_constructed browser disabled_config).
  - exists (world_of tagged_browser sample_config).
    split; [exact Hext|by vm_compute].
  - set (w := after [OpInit; OpScriptLoad 0%nat; OpMicrotasks]
                (world_of browser sample_config)).
    assert (Hw : reachable w).
    { exists browser, sample_config, (world_of browser sample_config),
        [OpInit; OpScriptLoad 0%nat; OpMicrotasks].
      split; reflexivity. }
    exists w. split; [exact Hw|].
    split; [by vm_compute|]. split; [by vm_compute|].
    split; [exact (reachable_step OpDestroy w Hw)|by vm_compute].
  - intros H. specialize (H _ Hext). destruct H as [H _].
    specialize (H eq_refl). vm_compute in H. discriminate.
Qed.

(** ** Rounding *)

Lemma toFixed_half_up (q : Q) :
  (0 <= q)%Q → ∃ r, toFixed 2 (Finite q) = Finite r ∧ half_up_cents q r.
Proof.
  intros Hq. unfold toFixed.
  assert (Hle : Qle_bool 0 q = true) by (by apply Qle_bool_iff).
  rewrite Hle. eexists. split; [reflexivity|].
  set (x := (Qabs q * inject_Z (pow10 2) + (1 # 2))%Q).
  exists (Qfloor x). unfold nearest_integer. fold x.
  assert (Hx : (x == q * 100 + (1 # 2))%Q).
  { unfold x. rewrite (Qabs_pos q Hq). reflexivity. }
  pose proof (Qfloor_le x) as Hlo. pose proof (Qlt_floor x) as Hhi.
  rewrite inject_Z_plus in Hhi.
  set (a := inject_Z (Qfloor x)) in *.
  assert (Hlo' : (a <= q * 100 + (1 # 2))%Q).
  { eapply Qle_trans; [exact Hlo|]. rewrite Hx. apply Qle_refl. }
  assert (Hhi' : (q * 100 + (1 # 2) < a + inject_Z 1)%Q).
  { eapply Qle_lt_trans; [|exact Hhi]. rewrite Hx. apply Qle_refl. }
  clear Hlo Hhi. rename Hlo' into Hlo. rename Hhi' into Hhi.
  assert (Hr : (Qred (a / inject_Z (pow10 2)) == a / 100)%Q).
  { rewrite Qred_correct. reflexivity. }
  split; [exact Hr|]. rewrite Hr.
  change (inject_Z 1) with 1%Q in Hhi.
  clearbody a. clear Hx. clearbody x.
  clear Hr Hle. unfold Qdiv. change (/ 100)%Q with (1 # 100)%Q.
  split; lra.
Qed.

(** ** Items *)

Lemma own_properties_quantity (item : EcommerceItem) :
  own_properties item !! "quantity" = more item !! "quantity".
Proof. unfold own_properties. by rewrite !lookup_insert_ne. Qed.

Lemma normalize_item_price (item : EcommerceItem) :
  normalize_item item !! "price" = Some (PNum (toFixed 2 (price item))).
Proof. unfold normalize_item, object_literal. cbn. apply lookup_insert_eq. Qed.

Lemma normalize_item_quantity (item : EcommerceItem) :
  normalize_item item !! "quantity" = Some (default one (more item !! "quantity")).
Proof.
  unfold normalize_item, object_literal, quantity, get. cbn [foldl add_member].
  rewrite lookup_insert_ne by done. rewrite lookup_union.
  rewrite own_properties_quantity, lookup_insert_eq.
  destruct (more item !! "quantity"); reflexivity.
Qed.

Lemma normalize_item_other (item : EcommerceItem) (k : string) :
  k ≠ "price" → k ≠ "quantity" →
  normalize_item item !! k = own_properties item !! k.
Proof.
  intros Hp Hq. unfold normalize_item, object_literal. cbn [foldl add_member].
  rewrite lookup_insert_ne by done. rewrite lookup_union.
  rewrite lookup_insert_ne by done. rewrite lookup_empty.
  by destruct (own_properties item !! k).
Qed.

Lemma normalize_item_normalized (item : EcommerceItem) :
  normalized item (normalize_item item).
Proof.
  unfold normalized. rewrite normalize_item_price, normalize_item_quantity.
  split; [reflexivity|]. split; [|split; [|split; [|split]]].
  - intros q Hq Hpos. rewrite Hq.
    destruct (toFixed_half_up q Hpos) as (r & Hr & Hhalf).
    exists r. by rewrite Hr.
  - by intros ->.
  - by intros q ->.
  - unfold quantity_at_least_one. rewrite normalize_item_quantity.
    intros [->|H]; [reflexivity|].
    destruct (more item !! "quantity"); [exact H|discriminate].
  - apply normalize_item_other.
Qed.

Lemma normalize_items_normalized (items : list EcommerceItem) :
  Forall2 normalized items (normalize_item <$> items).
Proof.
  induction items as [|item items IH]; constructor;
    [apply normalize_item_normalized|exact IH].
Qed.

(** ** The builders *)

Lemma reported_same (w : World) : reported w w = [].
Proof. unfold reported. apply drop_all. Qed.

Lemma reported_trackEvent (e : GAEvent) (w : World) :
  reported w (snd (trackEvent e no_options w)) =
  if ready w then [GtagEvent (event_name e) (event_parameters e)] else [].
Proof.
  unfold reported. rewrite trackEvent_calls. rewrite drop_app_length.
  cbn. by rewrite (left_id_L ∅ (∪)).
Qed.

Lemma dispatches_returns (m : Js unit) (w : World) (e : GAEvent) :
  dispatches m w e →
  fst (m w) = Normal tt ∧
  reported w (snd (m w)) =
    if ready w then [GtagEvent (event_name e) (event_parameters e)] else [].
Proof.
  unfold dispatches. intros ->. split;
    [apply trackEvent_returns|apply reported_trackEvent].
Qed.

Ltac split_guards :=
  repeat match goal with
    | |- context [if ?b then _ else _] =>
        lazymatch b with
        | context [trackEvent] => fail
        | _ => destruct b eqn:?
        end
    end.

Ltac literal_lookup :=
  unfold object_literal; cbn [foldl add_member];
  repeat first
    [ rewrite lookup_insert_eq
    | rewrite lookup_insert_ne by done
    | rewrite lookup_union_r by assumption
    | rewrite lookup_empty ];
  try reflexivity.

Ltac settle_builder :=
  js_unfold; split_guards;
  first
    [ left; eexists; reflexivity
    | right; eexists; split; [reflexivity|];
      cbn [event_parameters call_customParams call_items];
      intros Hcp; literal_lookup ].

Lemma positional_normalizing (c : EcommerceCall) (w : World) :
  normalizing (perform_positional c) c w.
Proof.
  unfold normalizing.
  destruct c as [a items id nm v cp|a items v cp|a items v cp|items v t cp
                |items v t cp|tid v items cp|tid v items cp
                |a items cn cs pid pn cp];
    cbn [perform_positional];
    unfold Positional.trackItem, Positional.trackCart, Positional.trackWishlist,
      Positional.trackShippingInfo, Positional.trackPaymentInfo,
      Positional.trackPurchase, Positional.trackRefund,
      Positional.trackPromotion, Positional.buildEvent, fixed_value;
    try (destruct v as [n|]; cbn [missing of_option_number truthy negb]);
    settle_builder.
Qed.

Lemma object_param_normalizing (c : EcommerceCall) (w : World) :
  normalizing (perform_object_param c) c w.
Proof.
  unfold normalizing.
  destruct c as [a items id nm v cp|a items v cp|a items v cp|items v t cp
                |items v t cp|tid v items cp|tid v items cp
                |a items cn cs pid pn cp];
    cbn [perform_object_param];
    unfold ObjectParam.trackItem, ObjectParam.trackCart,
      ObjectParam.trackWishlist, ObjectParam.trackShippingInfo,
      ObjectParam.trackPaymentInfo, ObjectParam.trackPurchase,
      ObjectParam.trackRefund, ObjectParam.trackPromotion,
      ObjectParam.buildEvent, fixed_value;
    try (destruct v as [n|];
         cbn [missing is_nullish of_option_number truthy negb]);
    settle_builder.
Qed.

Lemma with_quantity_one_normalized (item : EcommerceItem) :
  normalized item (Legacy.with_quantity_one item).
Proof.
  assert (Hq : Legacy.with_quantity_one item !! "quantity"
               = Some (default one (more item !! "quantity"))).
  { unfold Legacy.with_quantity_one, object_literal. cbn [foldl add_member].
    rewrite lookup_insert_ne by done. rewrite lookup_union.
    rewrite own_properties_quantity, lookup_insert_eq.
    destruct (more item !! "quantity"); reflexivity. }
  assert (Hp : Legacy.with_quantity_one item !! "price"
               = Some (PNum (toFixed 2 (price item)))).
  { unfold Legacy.with_quantity_one, object_literal. cbn. apply lookup_insert_eq. }
  unfold normalized. rewrite Hp, Hq.
  split; [reflexivity|]. split; [|split; [|split; [|split]]].
  - intros q Hprice Hpos. rewrite Hprice.
    destruct (toFixed_half_up q Hpos) as (r & Hr & Hhalf).
    exists r. by rewrite Hr.
  - by intros ->.
  - by intros q ->.
  - unfold quantity_at_least_one. rewrite Hq.
    intros [->|H]; [reflexivity|].
    destruct (more item !! "quantity"); [exact H|discriminate].
  - intros k Hkp Hkq.
    unfold Legacy.with_quantity_one, object_literal. cbn [foldl add_member].
    rewrite lookup_insert_ne by done. rewrite lookup_union.
    rewrite lookup_insert_ne by done. rewrite lookup_empty.
    by destruct (own_properties item !! k).
Qed.

Lemma with_quantity_one_all (items : list EcommerceItem) :
  Forall2 normalized items (Legacy.with_quantity_one <$> items).
Proof.
  induction items as [|item items IH]; constructor;
    [apply with_quantity_one_normalized|exact IH].
Qed.

Lemma legacy_cart_payload (a : string) (items : list CartItem)
    (v : option number) (cp : gmap string JsValue) (w : World) :
  (∃ err, Legacy.trackCart a items v cp w = (Throw err, w)) ∨
  (∃ e, dispatches (Legacy.trackCart a items v cp) w e ∧
        (cp !! "items" = None →
         event_parameters e !! "items" =
           Some (VItems (Legacy.with_quantity_one <$> items)))).
Proof.
  unfold Legacy.trackCart, Legacy.buildEvent.
  destruct v as [n|]; js_unfold; split_guards;
    first
      [ left; eexists; reflexivity
      | right; eexists; split; [reflexivity|];
        cbn [event_parameters]; intros Hcp; literal_lookup ].
Qed.

Lemma reported_one_event (m : Js unit) (w : World) (e : GAEvent)
    (name : string) (data : gmap string JsValue) :
  dispatches m w e → reported w (snd (m w)) = [GtagEvent name data] →
  ready w = true ∧ name = event_name e ∧ data = event_parameters e.
Proof.
  intros Hd. destruct (dispatches_returns m w e Hd) as [_ ->].
  destruct (ready w); [|discriminate]. intros [= <- <-]. done.
Qed.

Lemma reported_after_throw (m : Js unit) (w : World) (err : JsError)
    (name : string) (data : gmap string JsValue) :
  m w = (Throw err, w) → reported w (snd (m w)) ≠ [GtagEvent name data].
Proof. intros ->. cbn. by rewrite reported_same. Qed.

(** C4, as amended.  Take a call of [trackItem], [trackCart],
    [trackWishlist], [trackShippingInfo], [trackPaymentInfo],
    [trackPurchase], [trackRefund] or [trackPromotion] in the positional
    or the object-parameter revision, or of [trackCart] in the oldest
    one, whose custom parameters have no [items] key.  If the call
    reports an event, the [items] parameter of that event has one item
    per input item, in order, and each is [normalized]: its price is the
    input price rounded to two decimals (half-up when the price is not
    negative), its quantity is one when the input has none and the input
    quantity when that is present and truthy, so it is at least one
    whenever every quantity given is, and the other fields are passed
    through. *)
Theorem dispatched_items_normalized (c : EcommerceCall) (w : World)
    (name : string) (data : gmap string JsValue) :
  call_customParams c !! "items" = None →
  reported w (snd (perform_positional c w)) = [GtagEvent name data] ∨
  reported w (snd (perform_object_param c w)) = [GtagEvent name data] ∨
  (∃ a v, c = CallCart a (call_items c) v (call_customParams c) ∧
          reported w (snd (Legacy.trackCart a (call_items c) v
                             (call_customParams c) w))
            = [GtagEvent name data]) →
  ∃ outs, data !! "items" = Some (VItems outs) ∧
          Forall2 normalized (call_items c) outs.
Proof.
  intros Hcp [H|[H|(a & v & Hc & H)]].
  - destruct (positional_normalizing c w) as [[err Herr]|(e & Hd & Hitems)].
    + by destruct (reported_after_throw _ _ _ name data Herr).
    + destruct (reported_one_event _ _ _ _ _ Hd H) as (_ & _ & ->).
      eexists. split; [by apply Hitems|apply normalize_items_normalized].
  - destruct (object_param_normalizing c w) as [[err Herr]|(e & Hd & Hitems)].
    + by destruct (reported_after_throw _ _ _ name data Herr).
    + destruct (reported_one_event _ _ _ _ _ Hd H) as (_ & _ & ->).
      eexists. split; [by apply Hitems|apply normalize_items_normalized].
  - destruct (legacy_cart_payload a (call_items c) v (call_customParams c) w)
      as [[err Herr]|(e & Hd & Hitems)].
    + by destruct (reported_after_throw _ _ _ name data Herr).
    + destruct (reported_one_event _ _ _ _ _ Hd H) as (_ & _ & ->).
      eexists. split; [by apply Hitems|apply with_quantity_one_all].
Qed.

Lemma dispatched_items_normalized_witness :
  let c := CallCart CartType.ADD_TO_CART [shirt; with_quantity 3 shirt]
             (Some (Finite (79996 # 1000))) ∅ in
  let w := world_of tagged_browser sample_config in
  let data := object_literal
                [Field "currency" (str "USD");
                 Field "value" (num (Finite (80 # 1)));
                 Field "items" (VItems (normalize_item <$> call_items c))] in
  ∃ outs, data !! "items" = Some (VItems outs) ∧
          Forall2 normalized (call_items c) outs.
Proof.
  intros c w data.
  apply (dispatched_items_normalized c w "add_to_cart" data).
  - reflexivity.
  - left. vm_compute. reflexivity.
Defined.

(** C4 as stated fails: an item given with quantity [-2] is reported with
    quantity [-2], which is not at least one. *)
Lemma negative_quantity_is_dispatched :
  let item := with_quantity (-2) shirt in
  let w := world_of tagged_browser sample_config in
  ∃ data out,
    reported w (snd (Positional.trackCart CartType.ADD_TO_CART [item]
                       (Some (Finite 10)) ∅ w))
      = [GtagEvent "add_to_cart" data] ∧
    data !! "items" = Some (VItems [out]) ∧
    out !! "quantity" = Some (PNum (Finite (-2))) ∧
    quantity_at_least_one out = false.
Proof.
  intros item w. eexists _, _. split; [|split; [|split]].
  - vm_compute. reflexivity.
  - vm_compute. reflexivity.
  - vm_compute. reflexivity.
  - vm_compute. reflexivity.
Qed.

(** The default [item.quantity || 1] is computed for a quantity of zero,
    and then overwritten by the zero that [...item] copies. *)
Lemma zero_quantity_overrides_default :
  let item := with_quantity 0 shirt in
  or_else (quantity item) one = one ∧
  normalize_item item !! "quantity" = Some (PNum (Finite 0)) ∧
  Legacy.with_quantity_one item !! "quantity" = Some (PNum (Finite 0)).
Proof. vm_compute. repeat split; reflexivity. Qed.

(** *** Purchase *)

Lemma positional_purchase_event (tid : string) (value : number)
    (items : list EcommerceItem) (cp : gmap string JsValue) (w : World) :
  string_truthy tid = true → le_zero value = false →
  dispatches (Positional.trackPurchase tid value items cp) w
    {| event_name := GA_EVENTS.PURCHASE;
       event_parameters :=
         object_literal [Field "transaction_id" (str tid);
                         Field "currency" (currency_of (config w));
                         Field "value" (num (toFixed 2 value));
                         Field "items" (VItems (normalize_item <$> items));
                         Spread cp];
       timestamp := Some (clock w);
       event_category := ECOMMERCE |}.
Proof.
  intros Hid Hv. unfold dispatches, Positional.trackPurchase.
  rewrite Hid, Hv. reflexivity.
Qed.

Lemma object_param_purchase_event (tid : string) (value : number)
    (items : list EcommerceItem) (cp : gmap string JsValue) (w : World) :
  string_truthy tid = true → le_zero value = false →
  dispatches (ObjectParam.trackPurchase tid value items cp) w
    {| event_name := GA_EVENTS.PURCHASE;
       event_parameters :=
         object_literal [Field "transaction_id" (str tid);
                         Field "currency" (currency_of (config w));
                         Field "value" (num (toFixed 2 value));
                         Field "items" (VItems (normalize_item <$> items));
                         Spread cp];
       timestamp := None;
       event_category := ECOMMERCE |}.
Proof.
  intros Hid Hv. unfold dispatches, ObjectParam.trackPurchase.
  rewrite Hid, Hv. reflexivity.
Qed.

Lemma legacy_purchase_event (tid : string) (value : number)
    (items : list EcommerceItem) (cp : gmap string JsValue) (w : World) :
  string_truthy tid = true → le_zero value = false →
  dispatches (Legacy.trackPurchase tid value items cp) w
    {| event_name := GA_EVENTS.PURCHASE;
       event_parameters :=
         object_literal
           [Field "transaction_id" (str tid);
            Field "value" (num (toFixed 2 value));
            Field "currency" (currency_of (config w));
            Spread (if (length items =? 0)%nat then ∅
                    else {["items" := VItems (own_properties <$> items)]});
            Spread cp];
       timestamp := Some (clock w);
       event_category := ECOMMERCE |}.
Proof.
  intros Hid Hv. unfold dispatches, Legacy.trackPurchase.
  rewrite Hid, Hv. reflexivity.
Qed.

Lemma invalid_purchase_guard (tid : string) (value : number) :
  tid = "" ∨ le_zero value = true →
  negb (string_truthy tid) || le_zero value = true.
Proof. intros [->| ->]; [reflexivity|apply orb_true_r]. Qed.

(** C5: in every revision [trackPurchase] throws the error "GA4: Invalid
    purchase parameters" and leaves the world untouched (so before any
    dispatch attempt) whenever [transactionId] is empty or [value <= 0];
    with [transactionId = "ORDER_1"], [value = 25.5] and one item (and
    custom parameters that carry neither key) it hands over an event
    named "purchase" whose parameters have [transaction_id = "ORDER_1"]
    and [value = 25.5]. *)
Theorem purchase_contract :
  (∀ (tid : string) (value : number) (items : list EcommerceItem)
     (cp : gmap string JsValue) (w : World),
     tid = "" ∨ le_zero value = true →
     let refused := (Throw (new_Error "GA4: Invalid purchase parameters"), w) in
     Positional.trackPurchase tid value items cp w = refused ∧
     ObjectParam.trackPurchase tid value items cp w = refused ∧
     Legacy.trackPurchase tid value items cp w = refused) ∧
  (∀ (item : EcommerceItem) (cp : gmap string JsValue) (w : World),
     cp !! "transaction_id" = None → cp !! "value" = None →
     ∃ e1 e2 e3,
       dispatches
         (Positional.trackPurchase "ORDER_1" (Finite (51 # 2)) [item] cp) w e1 ∧
       dispatches
         (ObjectParam.trackPurchase "ORDER_1" (Finite (51 # 2)) [item] cp) w e2 ∧
       dispatches
         (Legacy.trackPurchase "ORDER_1" (Finite (51 # 2)) [item] cp) w e3 ∧
       purchase_of_order_1 e1 ∧ purchase_of_order_1 e2 ∧ purchase_of_order_1 e3).
Proof.
  split.
  - intros tid value items cp w H. apply invalid_purchase_guard in H.
    unfold Positional.trackPurchase, ObjectParam.trackPurchase,
      Legacy.trackPurchase. rewrite H. done.
  - intros item cp w Hid Hv.
    eexists _, _, _.
    split; [by apply positional_purchase_event|].
    split; [by apply object_param_purchase_event|].
    split; [by apply legacy_purchase_event|].
    unfold purchase_of_order_1. cbn [event_name event_parameters].
    repeat split; literal_lookup.
Qed.

Lemma purchase_contract_witness :
  Positional.trackPurchase "" (Finite 5) [shirt] ∅
    (world_of tagged_browser sample_config)
    = (Throw (new_Error "GA4: Invalid purchase parameters"),
       world_of tagged_browser sample_config) ∧
  Positional.trackPurchase "ORDER_1" (Finite 0) [shirt] ∅
    (world_of tagged_browser sample_config)
    = (Throw (new_Error "GA4: Invalid purchase parameters"),
       world_of tagged_browser sample_config) ∧
  ∃ e, dispatches
         (Positional.trackPurchase "ORDER_1" (Finite (51 # 2)) [shirt] ∅)
         (world_of tagged_browser sample_config) e ∧
       purchase_of_order_1 e.
Proof.
  destruct purchase_contract as [Hbad Hgood].
  split; [|split].
  - apply (Hbad "" (Finite 5) [shirt] ∅). left. reflexivity.
  - apply (Hbad "ORDER_1" (Finite 0) [shirt] ∅). right. reflexivity.
  - destruct (Hgood shirt ∅ (world_of tagged_browser sample_config))
      as (e1 & _ & _ & H1 & _ & _ & H2 & _); [reflexivity|reflexivity|].
    exists e1. split; assumption.
Defined.

Lemma gt_zero_not_le_zero (value : number) :
  gt_zero value = true → le_zero value = false.
Proof.
  destruct value as [|[]|q]; cbn; try done. by intros ->%negb_true_iff.
Qed.

Lemma nonempty_truthy (s : string) : s ≠ "" → string_truthy s = true.
Proof. destruct s; [done|reflexivity]. Qed.

(** C10: [trackPurchase] asks for no items.  With a non-empty
    [transactionId], [value > 0] and an empty item list (and no [items]
    key among the custom parameters) every revision completes normally
    and hands over a "purchase" event; in the positional and the
    object-parameter revision its [items] parameter is the empty list,
    in the oldest revision the [items] key is absent. *)
Theorem purchase_accepts_no_items (tid : string) (value : number)
    (cp : gmap string JsValue) (w : World) :
  tid ≠ "" → gt_zero value = true → cp !! "items" = None →
  ∃ e1 e2 e3,
    dispatches (Positional.trackPurchase tid value [] cp) w e1 ∧
    dispatches (ObjectParam.trackPurchase tid value [] cp) w e2 ∧
    dispatches (Legacy.trackPurchase tid value [] cp) w e3 ∧
    fst (Positional.trackPurchase tid value [] cp w) = Normal tt ∧
    fst (ObjectParam.trackPurchase tid value [] cp w) = Normal tt ∧
    fst (Legacy.trackPurchase tid value [] cp w) = Normal tt ∧
    event_name e1 = "purchase" ∧ event_name e2 = "purchase" ∧
    event_name e3 = "purchase" ∧
    event_parameters e1 !! "items" = Some (VItems []) ∧
    event_parameters e2 !! "items" = Some (VItems []) ∧
    event_parameters e3 !! "items" = None.
Proof.
  intros Hid%nonempty_truthy Hv%gt_zero_not_le_zero Hcp.
  pose proof (positional_purchase_event tid value [] cp w Hid Hv) as H1.
  pose proof (object_param_purchase_event tid value [] cp w Hid Hv) as H2.
  pose proof (legacy_purchase_event tid value [] cp w Hid Hv) as H3.
  eexists _, _, _. split; [exact H1|]. split; [exact H2|]. split; [exact H3|].
  rewrite H1, H2, H3. rewrite !trackEvent_returns.
  cbn [event_name event_parameters length Nat.eqb fmap list_fmap].
  repeat split; literal_lookup.
Qed.

Lemma purchase_accepts_no_items_witness :
  ∃ e1 e3,
    dispatches (Positional.trackPurchase "ORDER_1" (Finite (51 # 2)) [] ∅)
      (world_of tagged_browser sample_config) e1 ∧
    dispatches (Legacy.trackPurchase "ORDER_1" (Finite (51 # 2)) [] ∅)
      (world_of tagged_browser sample_config) e3 ∧
    event_parameters e1 !! "items" = Some (VItems []) ∧
    event_parameters e3 !! "items" = None.
Proof.
  destruct (purchase_accepts_no_items "ORDER_1" (Finite (51 # 2)) ∅
              (world_of tagged_browser sample_config))
    as (e1 & e2 & e3 & H1 & _ & H3 & _ & _ & _ & _ & _ & _ & I1 & _ & I3);
    [discriminate|reflexivity|reflexivity|].
  exists e1, e3. repeat split; assumption.
Defined.

(** The oldest [trackPurchase] forwards the items as they are. *)
Lemma legacy_purchase_forwards_items (w : World) :
  ∃ e, dispatches (Legacy.trackPurchase "ORDER_1" (Finite 20) [shirt] ∅) w e ∧
       event_parameters e !! "items" = Some (VItems [own_properties shirt]) ∧
       own_properties shirt !! "price" = Some (PNum (Finite (19999 # 1000))) ∧
       own_properties shirt !! "quantity" = None.
Proof.
  eexists. split; [by apply legacy_purchase_event|].
  cbn [event_parameters]. split; [|split]; vm_compute; reflexivity.
Qed.

(** *** Empty item lists *)

(** C6: with an empty item list, [trackCart], [trackWishlist],
    [trackShippingInfo] and [trackPaymentInfo] throw the "empty items"
    error and leave the world untouched (so before any dispatch attempt),
    for every action (the valid ones included), every value and every
    bag of custom parameters, in each revision that has the builder. *)
Theorem empty_items_rejected (action tier : string) (value : option number)
    (cp : gmap string JsValue) (w : World) :
  let no_items what :=
    (Throw (new_Error ("GA4: Cannot track " +:+ what +:+ " with empty items")),
     w) in
  Positional.trackCart action [] value cp w = no_items action ∧
  Positional.trackWishlist action [] value cp w = no_items action ∧
  Positional.trackShippingInfo [] value tier cp w = no_items "shipping info" ∧
  Positional.trackPaymentInfo [] value tier cp w = no_items "payment info" ∧
  ObjectParam.trackCart action [] value cp w = no_items action ∧
  ObjectParam.trackWishlist action [] value cp w = no_items action ∧
  ObjectParam.trackShippingInfo [] value tier cp w = no_items "shipping info" ∧
  ObjectParam.trackPaymentInfo [] value tier cp w = no_items "payment info" ∧
  Legacy.trackCart action [] value cp w = no_items action.
Proof. repeat split; reflexivity. Qed.

(** *** The value of cart and wishlist events *)

Lemma nonempty_length {A} (l : list A) : l ≠ [] → (length l =? 0)%nat = false.
Proof. by destruct l. Qed.

Lemma wishlist_event_name (action : string) :
  valid_wishlist_action action →
  (if String.eqb action WishlistType.ADD_TO_WISHLIST
   then mret GA_EVENTS.ADD_TO_WISHLIST
   else if String.eqb action WishlistType.REMOVE_FROM_WISHLIST
        then mret GA_EVENTS.REMOVE_FROM_WISHLIST
   else if String.eqb action WishlistType.VIEW_WISHLIST
        then mret GA_EVENTS.VIEW_WISHLIST
   else if String.eqb action WishlistType.UPDATE_WISHLIST
        then mret GA_EVENTS.UPDATE_WISHLIST
   else throw (new_Error ("GA4: Unsupported wishlist action " +:+ action)))
  = (mret action : Js string).
Proof.
  unfold valid_wishlist_action. rewrite !elem_of_cons, elem_of_nil.
  intros [->|[->|[->|[->|[]]]]]; reflexivity.
Qed.

Lemma object_param_wishlist_event (action : string) (items : list CartItem)
    (n : number) (cp : gmap string JsValue) (w : World) :
  items ≠ [] → valid_wishlist_action action →
  dispatches (ObjectParam.trackWishlist action items (Some n) cp) w
    {| event_name := action;
       event_parameters :=
         object_literal [Field "currency" (currency_of (config w));
                         Field "value" (num (toFixed 2 n));
                         Field "items" (VItems (normalize_item <$> items));
                         Spread cp];
       timestamp := None;
       event_category := ECOMMERCE |}.
Proof.
  intros Hitems Haction. unfold dispatches, ObjectParam.trackWishlist.
  rewrite (nonempty_length _ Hitems). cbn [is_nullish].
  rewrite (wishlist_event_name _ Haction). reflexivity.
Qed.

(** C7 as stated fails: the positional [trackWishlist], given one item
    and the value zero, throws "without value" instead of dispatching. *)
Lemma positional_wishlist_refuses_zero :
  Positional.trackWishlist WishlistType.ADD_TO_WISHLIST [shirt]
    (Some (Finite 0)) ∅ (world_of tagged_browser sample_config)
  = (Throw (new_Error "GA4: Cannot track add_to_wishlist without value"),
     world_of tagged_browser sample_config).
Proof. reflexivity. Qed.

(** C7, as amended.  With a non-empty item list: the object-parameter
    [trackWishlist] throws "without value" when the value is [null] or
    absent, and for a valid action and any number, zero included, it
    completes normally and hands over the event with the rounded value;
    the positional [trackWishlist] throws "without value" for an absent
    value and for zero alike; [trackCart] throws "without value" for
    zero in both of these revisions. *)
Theorem value_checks (action : string) (items : list CartItem)
    (cp : gmap string JsValue) (w : World) :
  items ≠ [] →
  let no_value :=
    (Throw (new_Error ("GA4: Cannot track " +:+ action +:+ " without value")),
     w) in
  ObjectParam.trackWishlist action items None cp w = no_value ∧
  (valid_wishlist_action action →
   ∀ n, ∃ e, dispatches (ObjectParam.trackWishlist action items (Some n) cp) w e ∧
             fst (ObjectParam.trackWishlist action items (Some n) cp w)
               = Normal tt ∧
             event_name e = action ∧
             (cp !! "value" = None →
              event_parameters e !! "value" = Some (num (toFixed 2 n)))) ∧
  Positional.trackWishlist action items None cp w = no_value ∧
  Positional.trackWishlist action items (Some (Finite 0)) cp w = no_value ∧
  Positional.trackCart action items (Some (Finite 0)) cp w = no_value ∧
  ObjectParam.trackCart action items (Some (Finite 0)) cp w = no_value.
Proof.
  intros Hitems no_value. pose proof (nonempty_length _ Hitems) as Hlen.
  unfold ObjectParam.trackWishlist, Positional.trackWishlist,
    Positional.trackCart, ObjectParam.trackCart. rewrite Hlen.
  split; [reflexivity|]. split; [|repeat split; reflexivity].
  intros Haction n.
  pose proof (object_param_wishlist_event action items n cp w Hitems Haction)
    as Hd.
  eexists. split; [|split; [|split]].
  - unfold dispatches, ObjectParam.trackWishlist in Hd. rewrite Hlen in Hd.
    exact Hd.
  - unfold dispatches, ObjectParam.trackWishlist in Hd. rewrite Hlen in Hd.
    rewrite Hd. apply trackEvent_returns.
  - reflexivity.
  - intros Hcp. cbn [event_parameters]. literal_lookup.
Qed.

Lemma value_checks_witness :
  let w := world_of tagged_browser sample_config in
  (∃ e, dispatches
          (ObjectParam.trackWishlist WishlistType.ADD_TO_WISHLIST [shirt]
             (Some (Finite 0)) ∅) w e ∧
        event_parameters e !! "value" = Some (num (Finite 0))) ∧
  Positional.trackCart CartType.ADD_TO_CART [shirt] (Some (Finite 0)) ∅ w
  = (Throw (new_Error "GA4: Cannot track add_to_cart without value"), w).
Proof.
  intros w. split.
  - destruct (value_checks WishlistType.ADD_TO_WISHLIST [shirt] ∅ w)
      as (_ & H & _); [discriminate|].
    destruct (H ltac:(unfold valid_wishlist_action; set_solver) (Finite 0))
      as (e & Hd & _ & _ & Hv).
    exists e. split; [exact Hd|]. apply Hv. reflexivity.
  - destruct (value_checks CartType.ADD_TO_CART [shirt] ∅ w)
      as (_ & _ & _ & _ & H & _); [discriminate|]. exact H.
Defined.

(** *** Page views and searches *)

Lemma skipped_silently (level : ConsoleLevel) (msg : string) (w : World) :
  silent (cfg ← read config;
          if flag (debug cfg) then console_log level msg else mret tt) w.
Proof.
  unfold silent, console_log. js_unfold.
  destruct (flag (debug (config w))); done.
Qed.

Lemma no_path_no_page_url (options : PageViewOptions) (w : World) :
  path options = None →
  isBrowser w = false ∨ location_href <$> window w = Some "" →
  match path options with
  | Some p => Some p
  | None => if isBrowser w then location_href <$> window w else None
  end = None ∨
  match path options with
  | Some p => Some p
  | None => if isBrowser w then location_href <$> window w else None
  end = Some "".
Proof.
  intros -> [->| ->]; [by left|]. destruct (isBrowser w); [by right|by left].
Qed.

(** C8: the builders that skip silently.  In every revision, [trackPage]
    without an explicit path in a host without [window], or with an empty
    location, completes normally and does not call the reporting
    function; so does [trackSearch] for a missing, empty or white-space
    term; and for a term that is not empty after trimming (and options
    without a [search_term] key of their own) [trackSearch] hands over a
    "search" event whose [search_term] is the trimmed input. *)
Theorem silent_skips (options : PageViewOptions) (term : option string)
    (extra : gmap string JsValue) (w : World) :
  (path options = None →
   isBrowser w = false ∨ location_href <$> window w = Some "" →
   silent (Positional.trackPage options) w ∧
   silent (ObjectParam.trackPage options) w ∧
   silent (Legacy.trackPageView options) w) ∧
  (default "" (trim <$> term) = "" →
   silent (Positional.trackSearch term extra) w ∧
   silent (ObjectParam.trackSearch term extra) w ∧
   silent (Legacy.trackSearch term extra) w) ∧
  (∀ s, term = Some s → trim s ≠ "" → extra !! "search_term" = None →
   ∃ e1 e2 e3,
     dispatches (Positional.trackSearch term extra) w e1 ∧
     dispatches (ObjectParam.trackSearch term extra) w e2 ∧
     dispatches (Legacy.trackSearch term extra) w e3 ∧
     Forall (λ e, event_name e = "search" ∧
                  event_parameters e !! "search_term" = Some (str (trim s)))
       [e1; e2; e3]).
Proof.
  split; [|split].
  - intros Hpath Henv.
    pose proof (no_path_no_page_url options w Hpath Henv) as Hurl.
    unfold Positional.trackPage, ObjectParam.trackPage, Legacy.trackPageView.
    unfold silent. js_unfold. cbv beta.
    destruct Hurl as [-> | ->]; cbv beta iota;
      unfold console_log; js_unfold;
      destruct (flag (debug (config w))); done.
  - intros Hterm.
    unfold Positional.trackSearch, ObjectParam.trackSearch, Legacy.trackSearch.
    destruct (trim <$> term) as [t|]; cbn in Hterm; [subst t|];
      repeat split; apply skipped_silently.
  - intros s -> Hs Hextra.
    unfold dispatches, Positional.trackSearch, ObjectParam.trackSearch,
      Legacy.trackSearch, Positional.buildEvent, ObjectParam.buildEvent,
      Legacy.buildEvent.
    cbn [fmap option_fmap option_map]. destruct (trim s) as [|c t]; [done|].
    js_unfold.
    eexists _, _, _. split; [reflexivity|]. split; [reflexivity|].
    split; [reflexivity|].
    repeat constructor; cbn [event_parameters]; literal_lookup.
Qed.

Lemma silent_skips_witness :
  let nowhere := {| path := None; title := Some "Home"; referrer := None;
                    customParams := ∅ |} in
  silent (Positional.trackPage nowhere) (world_of server sample_config) ∧
  silent (Positional.trackSearch (Some "   ") ∅)
    (world_of tagged_browser sample_config) ∧
  ∃ e, dispatches (Positional.trackSearch (Some "  red shoes ") ∅)
         (world_of tagged_browser sample_config) e ∧
       event_parameters e !! "search_term" = Some (str "red shoes").
Proof.
  intros nowhere. split; [|split].
  - destruct (silent_skips nowhere None ∅ (world_of server sample_config))
      as (H & _ & _).
    destruct H as (H & _ & _); [reflexivity|left; reflexivity|exact H].
  - destruct (silent_skips nowhere (Some "   ") ∅
                (world_of tagged_browser sample_config)) as (_ & H & _).
    destruct H as (H & _ & _); [reflexivity|exact H].
  - destruct (silent_skips nowhere (Some "  red shoes ") ∅
                (world_of tagged_browser sample_config)) as (_ & _ & H).
    destruct (H "  red shoes " eq_refl) as (e1 & e2 & e3 & Hd & _ & _ & Hall);
      [discriminate|reflexivity|].
    exists e1. split; [exact Hd|].
    apply Forall_cons in Hall as [[_ Hterm] _]. exact Hterm.
Defined.

(** * Further properties *)

(** ** Frames: what an operation leaves alone *)

Lemma settle_frame (p : PromiseId) (s : Settlement) (w : World) :
  same_page w (snd (settle p s w)) ∧
  initializationState (snd (settle p s w)) = initializationState w ∧
  suspended (snd (settle p s w)) = suspended w ∧
  gtagLoadPromise (snd (settle p s w)) = gtagLoadPromise w.
Proof.
  unfold settle, same_page. js_unfold. cbn. by repeat case_match.
Qed.

Lemma same_page_refl (w : World) : same_page w w.
Proof. by unfold same_page. Qed.

Lemma same_page_trans (w1 w2 w3 : World) :
  same_page w1 w2 → same_page w2 w3 → same_page w1 w3.
Proof. unfold same_page. intuition congruence. Qed.

Lemma resume_frame (a r : PromiseId) (s : Settlement) (w : World) :
  same_page w (snd (resume a r s w)).
Proof.
  unfold resume, settle, same_page. js_unfold.
  destruct s; cbn; by repeat case_match.
Qed.

Lemma resume_all_frame (l : list (PromiseId * PromiseId)) (w : World) :
  same_page w (snd (resume_all l w)).
Proof.
  revert w. induction l as [|[a r] l IH]; intros w; [apply same_page_refl|].
  cbn [resume_all]. js_unfold.
  destruct (state_of w a) eqn:Hs.
  - cbn. eapply same_page_trans; [|apply IH]. by unfold same_page.
  - pose proof (resume_frame a r Fulfilled w) as H.
    destruct (resume a r Fulfilled w) as [[] w'] eqn:Hr; cbn in H.
    + eapply same_page_trans; [exact H|apply IH].
    + exact H.
  - pose proof (resume_frame a r (Rejected reason) w) as H.
    destruct (resume a r (Rejected reason) w) as [[] w'] eqn:Hr; cbn in H.
    + eapply same_page_trans; [exact H|apply IH].
    + exact H.
Qed.

(** ** The life cycle *)

(** The synchronous part of [init] in a browser. *)
Lemma init_synchronous_part (w : World) (win : Window) :
  window w = Some win → isInitialized w = false →
  initializationState w ≠ INITIALIZING →
  let p := length (promises w) in
  let w1 := snd (init w) in
  fst (init w) = Normal (S p) ∧
  initializationState w1 = INITIALIZING ∧
  gtagLoadPromise w1 = Some p ∧
  promises w1 = promises w ++ [Pending; Pending] ∧
  suspended w1 = suspended w ++ [(p, S p)] ∧
  load_attempts w1 = S (load_attempts w) ∧
  config w1 = config w ∧
  gtag_calls w1 = gtag_calls w ++ configuration_calls w ∧
  ∃ win1, window w1 = Some win1 ∧
          gtag win1 = Some DataLayerGtag ∧
          head win1 = head win ++ [backend_script w] ∧
          dataLayer win1 =
            Some (default [] (dataLayer win) ++ configuration_calls w).
Proof.
  intros Hwin Hready Hstate p w1.
  destruct (isInitialized_false w Hready) as (Hd & _ & Hg).
  assert (Hready' : isInitialized (set_initializationState INITIALIZING w) = false).
  { unfold isInitialized. cbn. rewrite Hd. exact Hg. }
  subst w1 p. unfold init. js_unfold. rewrite Hready.
  rewrite bool_decide_eq_false_2 by done. cbv beta.
  unfold loadGoogleAnalytics. js_unfold. rewrite Hready'.
  unfold new_Promise, new_promise, append_script, configureGA, call_gtag,
    settle, configuration_calls, backend_script. js_unfold. cbn.
  rewrite Hwin. cbn.
  destruct (customConfig (config w)); cbn;
    rewrite ?length_app; cbn; rewrite ?Nat.add_1_r;
    rewrite <- ?(assoc_L (++)); cbn;
    repeat split; try done;
    eexists; (split; [reflexivity|]); cbn; repeat split; try done.
Qed.

(** X1: the first [init] in a browser configures before anything has loaded.
    On a page without a reporting function, with tracking enabled and no
    initialization under way or completed, [init] answers with a new
    promise, which is
    pending like the load promise before it, sets the state to
    [INITIALIZING], appends one script element for the measurement id to
    the document head and makes exactly the calls of [configureGA]; from
    then on [isInitialized] answers true, although the script has not
    loaded. *)
Theorem init_configures_before_load (w : World) (win : Window) :
  window w = Some win → isInitialized w = false →
  initializationState w ≠ INITIALIZING →
  let p := length (promises w) in
  let w1 := snd (init w) in
  fst (init w) = Normal (S p) ∧
  promises w1 !! p = Some Pending ∧ promises w1 !! S p = Some Pending ∧
  initializationState w1 = INITIALIZING ∧
  isInitialized w1 = true ∧
  scripts w1 = scripts w ++ [backend_script w] ∧
  reported w w1 = configuration_calls w.
Proof.
  intros Hwin Hready Hstate p w1. subst p w1.
  destruct (init_synchronous_part w win Hwin Hready Hstate)
    as (Hres & Hst & _ & Hps & _ & _ & Hcfg & Hcalls & win1 & Hwin1 & Hg & Hh & _).
  assert (Hoff : flag (disableGA (config w)) = false).
  { unfold isInitialized in Hready. destruct (flag _); [discriminate|done]. }
  repeat split.
  - exact Hres.
  - rewrite Hps, lookup_app_r by lia.
    by rewrite Nat.sub_diag.
  - rewrite Hps, lookup_app_r by lia.
    by replace (S (length (promises w)) - length (promises w))%nat with 1%nat
      by lia.
  - exact Hst.
  - unfold isInitialized, isGtagAvailable, isBrowser.
    rewrite Hcfg, Hoff, Hwin1, Hg. by rewrite orb_true_r.
  - unfold scripts. by rewrite Hwin1, Hwin, Hh.
  - unfold reported. rewrite Hcalls. by rewrite drop_app_length.
Qed.

Lemma init_configures_before_load_witness :
  let w1 := snd (init (world_of browser sample_config)) in
  initializationState w1 = INITIALIZING ∧ isInitialized w1 = true.
Proof.
  intros w1.
  destruct (init_configures_before_load (world_of browser sample_config)
              plain_page) as (_ & _ & _ & Hst & Hready & _);
    [reflexivity|reflexivity|discriminate|].
  split; assumption.
Defined.

Lemma lookup_two_0 {A} (l : list A) (a b : A) :
  (l ++ [a; b]) !! length l = Some a.
Proof. by apply list_lookup_middle. Qed.

Lemma lookup_two_1 {A} (l : list A) (a b : A) :
  (l ++ [a; b]) !! S (length l) = Some b.
Proof.
  change (l ++ [a; b]) with (l ++ [a] ++ [b]). rewrite (assoc_L (++)).
  apply list_lookup_middle. rewrite length_app. cbn. lia.
Qed.

Lemma insert_two_0 {A} (l : list A) (a b x : A) :
  <[length l := x]> (l ++ [a; b]) = l ++ [x; b].
Proof. rewrite insert_app_r_alt by lia. by rewrite Nat.sub_diag. Qed.

Lemma insert_two_1 {A} (l : list A) (a b x : A) :
  <[S (length l) := x]> (l ++ [a; b]) = l ++ [a; x].
Proof.
  rewrite insert_app_r_alt by lia.
  by replace (S (length l) - length l)%nat with 1%nat by lia.
Qed.

Lemma script_event_settles (k : nat) (s : Settlement) (w : World)
    (win : Window) (tag : Script) :
  window w = Some win → head win !! k = Some tag →
  promises w !! script_promise tag = Some Pending →
  script_event k s w =
  (Normal tt, set_promises (<[script_promise tag := s]> (promises w)) w).
Proof.
  intros Hwin Htag Hp. unfold script_event, settle. js_unfold.
  by rewrite Hwin, Htag, Hp.
Qed.

Lemma microtasks_resume_one (w : World) (a r : PromiseId) (s : Settlement) :
  suspended w = [(a, r)] → promises w !! a = Some s → s ≠ Pending →
  promises w !! r = Some Pending →
  let w' := snd (run_microtasks w) in
  initializationState w' = outcome_state s ∧
  promises w' = <[r := outcome_promise s]> (promises w) ∧
  suspended w' = [] ∧ same_page w w' ∧
  gtagLoadPromise w' = gtagLoadPromise w.
Proof.
  intros Hs Ha Hne Hr. unfold run_microtasks, same_page. js_unfold. cbn.
  rewrite Hs. cbn [resume_all]. js_unfold. unfold state_of. cbn.
  rewrite Ha. cbn. unfold resume, settle. js_unfold.
  destruct s; [done| |]; cbn; rewrite Hr; done.
Qed.

Lemma microtasks_keep_waiting (w : World) (a r : PromiseId) :
  suspended w = [(a, r)] → promises w !! a = Some Pending →
  snd (run_microtasks w) = w.
Proof.
  intros Hs Ha. unfold run_microtasks. js_unfold. cbn.
  rewrite Hs. cbn [resume_all]. js_unfold. unfold state_of. cbn.
  rewrite Ha. cbn. rewrite <- Hs. by destruct w.
Qed.

Lemma run_init (w : World) : snd (run_operation OpInit w) = snd (init w).
Proof.
  cbn. js_unfold. by destruct (init w) as [[] ?].
Qed.

(** X2: the outcome of a load.  After [init] in such a world, with no other
    initialization suspended: when the appended script fires its load
    event and the microtasks have run, the state is [INITIALIZED] and the
    promise that [init] returned is fulfilled; when it fires its error
    event instead, the state is [FAILED] and that promise is rejected
    with the error
    "GA4 initialization failed: Failed to load Google Analytics script".
    One load attempt was made either way. *)
Theorem load_outcome (w : World) (win : Window) :
  window w = Some win → isInitialized w = false →
  initializationState w ≠ INITIALIZING → suspended w = [] →
  let k := length (head win) in
  let p := length (promises w) in
  let loaded := after [OpInit; OpScriptLoad k; OpMicrotasks] w in
  let failed := after [OpInit; OpScriptError k; OpMicrotasks] w in
  fst (init w) = Normal (S p) ∧
  initializationState loaded = INITIALIZED ∧
  state_of loaded (S p) = Fulfilled ∧
  initializationState failed = FAILED ∧
  state_of failed (S p) =
    Rejected (new_Error
      "GA4 initialization failed: Failed to load Google Analytics script") ∧
  load_attempts loaded = S (load_attempts w) ∧
  load_attempts failed = S (load_attempts w).
Proof.
  intros Hwin Hready Hstate Hsusp k p loaded failed. subst k p.
  destruct (init_synchronous_part w win Hwin Hready Hstate)
    as (Hres & Hst & Hlp & Hps & Hsp & Hla & Hcfg & Hcalls & win1 & Hwin1
        & Hg1 & Hhead & Hdl).
  split; [exact Hres|].
  assert (Htag : head win1 !! length (head win) = Some (backend_script w))
    by (rewrite Hhead; by apply list_lookup_middle).
  assert (Hpend : promises (snd (init w)) !! script_promise (backend_script w)
                  = Some Pending)
    by (rewrite Hps; apply lookup_two_0).
  assert (Hboth : ∀ s, s ≠ Pending →
            let w3 := snd (run_microtasks
                             (snd (script_event (length (head win)) s
                                     (snd (init w))))) in
            initializationState w3 = outcome_state s ∧
            state_of w3 (S (length (promises w))) = outcome_promise s ∧
            load_attempts w3 = S (load_attempts w)).
  { intros s Hs.
    rewrite (script_event_settles _ s _ win1 _ Hwin1 Htag Hpend).
    cbn [snd]. cbn [script_promise backend_script]. rewrite Hps, insert_two_0.
    match goal with |- context [run_microtasks ?x] => set (w2 := x) end.
    destruct (microtasks_resume_one w2 (length (promises w))
                (S (length (promises w))) s) as (H1 & H2 & _ & H4 & _).
    - subst w2. cbn. rewrite Hsp, Hsusp. done.
    - subst w2. cbn. apply lookup_two_0.
    - exact Hs.
    - subst w2. cbn. apply lookup_two_1.
    - cbn zeta. split; [exact H1|]. split.
      + unfold state_of. rewrite H2. subst w2. cbn.
        rewrite insert_two_1. by rewrite lookup_two_1.
      + destruct H4 as (_ & _ & -> & _). subst w2. cbn. exact Hla. }
  subst loaded failed. unfold after. cbn [foldl]. rewrite !run_init.
  cbn [run_operation]. unfold script_onload, script_onerror.
  destruct (Hboth Fulfilled ltac:(done)) as (A1 & A2 & A3).
  destruct (Hboth (Rejected (new_Error "Failed to load Google Analytics script"))
              ltac:(done)) as (B1 & B2 & B3).
  done.
Qed.

Lemma load_outcome_witness :
  let w := world_of browser sample_config in
  initializationState (after [OpInit; OpScriptLoad 0; OpMicrotasks] w)
    = INITIALIZED ∧
  initializationState (after [OpInit; OpScriptError 0; OpMicrotasks] w)
    = FAILED.
Proof.
  intros w.
  destruct (load_outcome w plain_page) as (_ & Hok & _ & Hbad & _);
    [reflexivity|reflexivity|discriminate|reflexivity|].
  split; assumption.
Defined.

Lemma same_page_shape (w w' : World) :
  same_page w w' → page_shape w' = page_shape w.
Proof.
  intros (Hw & _ & Hl & _).
  unfold page_shape, isGtagAvailable, isBrowser, scripts. by rewrite Hw, Hl.
Qed.

Lemma trackEvent_page_shape (e : GAEvent) (o : TrackingOptions) (w : World) :
  page_shape (snd (trackEvent e o w)) = page_shape w.
Proof.
  unfold page_shape, scripts, trackEvent, console_log, queueMicrotask, call_gtag.
  js_unfold. destruct (flag (disableGA (config w))); [done|].
  unfold isGtagAvailable, isBrowser.
  destruct (window w) as [win|] eqn:Hwin; cbn; rewrite ?Hwin; [|done].
  destruct (gtag win) as [[|[err|]]|] eqn:Hg; cbn; rewrite ?Hwin; cbn;
    rewrite ?Hg; cbn; try destruct (dataLayer win); cbn;
    try destruct (onError o); cbn; rewrite ?Hwin, ?Hg; done.
Qed.

Lemma destroy_frame (w : World) : same_page w (snd (destroy w)).
Proof. by unfold same_page. Qed.

Lemma script_event_frame (k : nat) (s : Settlement) (w : World) :
  same_page w (snd (script_event k s w)).
Proof.
  unfold script_event. destruct (window w) as [win|]; [|apply same_page_refl].
  destruct (head win !! k); [|apply same_page_refl]. apply settle_frame.
Qed.

Lemma run_microtasks_frame (w : World) : same_page w (snd (run_microtasks w)).
Proof.
  unfold run_microtasks. js_unfold. cbn.
  eapply same_page_trans; [|apply resume_all_frame]. by unfold same_page.
Qed.

Lemma init_frame_unless_loading (w : World) :
  isInitialized w = true ∨ initializationState w = INITIALIZING →
  same_page w (snd (init w)).
Proof.
  intros H. unfold init, Promise_resolve, new_promise, same_page. js_unfold.
  destruct (isInitialized w); [done|]. destruct H as [H|H]; [done|].
  rewrite H. rewrite bool_decide_eq_true_2 by done. cbv beta.
  by destruct (gtagLoadPromise w).
Qed.

Lemma gtag_available_ready (w : World) :
  isGtagAvailable w = true → isInitialized w = true.
Proof.
  intros H. unfold isInitialized. rewrite H.
  destruct (flag (disableGA (config w))); [done|apply orb_true_r].
Qed.

(** The invariant of a browser instance: one script element per load
    attempt, and after the first attempt a reporting function is
    installed, which keeps [init] from making another. *)
Lemma browser_step (n0 : nat) (op : Operation) (w : World) :
  isBrowser w = true →
  length (scripts w) = (n0 + load_attempts w)%nat →
  load_attempts w = 0%nat ∨ load_attempts w = 1%nat ∧ isGtagAvailable w = true →
  let w' := snd (run_operation op w) in
  isBrowser w' = true ∧
  length (scripts w') = (n0 + load_attempts w')%nat ∧
  (load_attempts w' = 0%nat ∨
   load_attempts w' = 1%nat ∧ isGtagAvailable w' = true).
Proof.
  intros Hb Hs Hl w'.
  assert (Hsame : ∀ w', page_shape w' = page_shape w →
            isBrowser w' = true ∧
            length (scripts w') = (n0 + load_attempts w')%nat ∧
            (load_attempts w' = 0%nat ∨
             load_attempts w' = 1%nat ∧ isGtagAvailable w' = true)).
  { unfold page_shape. intros w2 [= -> -> -> ->]. done. }
  subst w'. destruct op as [| |e o|k|k|].
  - rewrite run_init.
    destruct (isInitialized w) eqn:Hready.
    { apply Hsame, same_page_shape, init_frame_unless_loading. by left. }
    destruct (decide (initializationState w = INITIALIZING)) as [Hi|Hi].
    { apply Hsame, same_page_shape, init_frame_unless_loading. by right. }
    clear Hsame. unfold isBrowser, scripts in *.
    destruct (window w) as [win|] eqn:Hwin; [|done].
    destruct (init_synchronous_part w win Hwin Hready Hi)
      as (_ & _ & _ & _ & _ & Hla & _ & _ & win1 & Hwin1 & Hg1 & Hhead & _).
    destruct Hl as [Hl|[_ Hl]];
      [|by rewrite (gtag_available_ready w Hl) in Hready].
    unfold isGtagAvailable, isBrowser. rewrite Hwin1, Hg1, Hla, Hhead, Hl.
    rewrite length_app. cbn. rewrite Hl in Hs. split; [done|].
    split; [lia|by right].
  - apply Hsame, same_page_shape, destroy_frame.
  - apply Hsame, trackEvent_page_shape.
  - apply Hsame, same_page_shape, script_event_frame.
  - apply Hsame, same_page_shape, script_event_frame.
  - apply Hsame, same_page_shape, run_microtasks_frame.
Qed.

(** X3: in a browser at most one backend script is ever injected.  For an
    instance constructed on a page, after any sequence of [init],
    [destroy], [trackEvent], script events and microtask drains, at most
    one load was attempted, the document head has grown by one script
    element per attempt, and once an attempt was made [isInitialized]
    answers true: a failed load is never tried again, since [configureGA]
    has left its reporting function on the page. *)
Theorem browser_loads_at_most_once (env : Environment) (cfg : GA4Config)
    (w0 : World) (ops : list Operation) :
  new env cfg = Normal w0 → isBrowser w0 = true →
  let w := after ops w0 in
  (load_attempts w ≤ 1)%nat ∧
  length (scripts w) = (length (scripts w0) + load_attempts w)%nat ∧
  (load_attempts w = 1%nat → isInitialized w = true).
Proof.
  intros Hnew Hb.
  assert (H0 : load_attempts w0 = 0%nat).
  { unfold new, constructor, validateConfig in Hnew. js_unfold. cbn in Hnew.
    repeat case_match; by simplify_eq. }
  assert (Inv : ∀ ops w,
            isBrowser w = true →
            length (scripts w) = (length (scripts w0) + load_attempts w)%nat →
            load_attempts w = 0%nat ∨
            load_attempts w = 1%nat ∧ isGtagAvailable w = true →
            let w' := after ops w in
            isBrowser w' = true ∧
            length (scripts w') = (length (scripts w0) + load_attempts w')%nat ∧
            (load_attempts w' = 0%nat ∨
             load_attempts w' = 1%nat ∧ isGtagAvailable w' = true)).
  { clear ops. intros ops. induction ops as [|op ops IH]; intros w H1 H2 H3.
    - done.
    - destruct (browser_step _ op w H1 H2 H3) as (A & B & C).
      apply (IH _ A B C). }
  destruct (Inv ops w0 Hb) as (_ & A & B); [lia|by left|].
  cbn zeta. split; [lia|]. split; [exact A|].
  intros H1. destruct B as [B|[_ B]]; [lia|by apply gtag_available_ready].
Qed.

Lemma browser_loads_at_most_once_witness :
  (load_attempts
     (after [OpInit; OpDestroy; OpInit; OpScriptError 0; OpMicrotasks; OpInit]
        (world_of browser sample_config)) ≤ 1)%nat.
Proof.
  apply (browser_loads_at_most_once browser sample_config
           (world_of browser sample_config)
           [OpInit; OpDestroy; OpInit; OpScriptError 0; OpMicrotasks; OpInit]);
    reflexivity.
Defined.

Lemma disabled_ready (w : World) :
  flag (disableGA (config w)) = true → isInitialized w = true.
Proof. intros H. unfold isInitialized. by rewrite H. Qed.

Lemma disabled_step (op : Operation) (w : World) :
  flag (disableGA (config w)) = true →
  same_page w (snd (run_operation op w)).
Proof.
  intros Hd. destruct op as [| |e o|k|k|].
  - rewrite run_init. apply init_frame_unless_loading. left.
    by apply disabled_ready.
  - apply destroy_frame.
  - cbn. unfold trackEvent. js_unfold. rewrite Hd. apply same_page_refl.
  - apply script_event_frame.
  - apply script_event_frame.
  - apply run_microtasks_frame.
Qed.

(** X4: a disabled instance never touches the page.  With [disableGA] set,
    no sequence of operations changes the window, calls the reporting
    function or attempts a load, and [isInitialized] answers true
    throughout. *)
Theorem disabled_never_touches_the_page (ops : list Operation) (w : World) :
  flag (disableGA (config w)) = true →
  window (after ops w) = window w ∧
  gtag_calls (after ops w) = gtag_calls w ∧
  load_attempts (after ops w) = load_attempts w ∧
  isInitialized (after ops w) = true.
Proof.
  intros Hd.
  assert (H : same_page w (after ops w)).
  { revert w Hd. induction ops as [|op ops IH]; intros w Hd;
      [apply same_page_refl|].
    pose proof (disabled_step op w Hd) as Hstep.
    eapply same_page_trans; [exact Hstep|]. apply IH.
    destruct Hstep as (_ & -> & _). exact Hd. }
  destruct H as (A & B & C & D). repeat split; try done.
  apply disabled_ready. by rewrite B.
Qed.

Lemma disabled_never_touches_the_page_witness :
  let w := world_of browser disabled_config in
  window (after [OpInit; OpTrackEvent sample_event no_options] w) = window w.
Proof.
  intros w.
  apply (disabled_never_touches_the_page
           [OpInit; OpTrackEvent sample_event no_options] w).
  reflexivity.
Defined.

(** X5: after [destroy], [init] on a page that has a reporting function
    does nothing but answer with a fulfilled promise: the state stays
    [NOT_INITIALIZED], no load promise is kept, and the page, the
    configuration and the calls made are as before. *)
Theorem destroy_then_init (w : World) :
  isGtagAvailable w = true →
  let w' := snd (init (snd (destroy w))) in
  initializationState w' = NOT_INITIALIZED ∧
  gtagLoadPromise w' = None ∧
  same_page w w' ∧
  isInitialized w' = true ∧
  ∃ p, fst (init (snd (destroy w))) = Normal p ∧ state_of w' p = Fulfilled.
Proof.
  intros Hg.
  assert (Hr : isInitialized (snd (destroy w)) = true).
  { apply gtag_available_ready. exact Hg. }
  cbn zeta. unfold init, Promise_resolve. js_unfold. rewrite Hr.
  split; [done|]. split; [done|]. split; [by unfold same_page|].
  split; [exact Hr|].
  eexists. split; [reflexivity|]. apply fresh_promise_state.
Qed.

Lemma destroy_then_init_witness :
  let w := world_of tagged_browser sample_config in
  initializationState (snd (init (snd (destroy w)))) = NOT_INITIALIZED.
Proof.
  intros w. apply (destroy_then_init w). reflexivity.
Defined.

(** X6: [destroy] does not cancel a load in flight.  When [destroy] runs
    between [init] and the load event of the script, it resets the state
    and forgets the load promise, but the suspended [init] resumes all
    the same: after the load event and the microtasks the state is
    [INITIALIZED] again, the load promise is still forgotten, and the
    promise of the first [init] is fulfilled. *)
Theorem destroy_during_load (w : World) (win : Window) :
  window w = Some win → isInitialized w = false →
  initializationState w ≠ INITIALIZING → suspended w = [] →
  let k := length (head win) in
  let w2 := after [OpInit; OpDestroy] w in
  let w4 := after [OpInit; OpDestroy; OpScriptLoad k; OpMicrotasks] w in
  initializationState w2 = NOT_INITIALIZED ∧
  gtagLoadPromise w2 = None ∧
  initializationState w4 = INITIALIZED ∧
  gtagLoadPromise w4 = None ∧
  state_of w4 (S (length (promises w))) = Fulfilled.
Proof.
  intros Hwin Hready Hstate Hsusp k w2 w4. subst k w2 w4.
  destruct (init_synchronous_part w win Hwin Hready Hstate)
    as (Hres & Hst & Hlp & Hps & Hsp & Hla & Hcfg & Hcalls & win1 & Hwin1
        & Hg1 & Hhead & Hdl).
  unfold after. cbn [foldl]. rewrite !run_init. cbn [run_operation].
  split; [done|]. split; [done|].
  set (w2 := snd (destroy (snd (init w)))).
  assert (Htag : head win1 !! length (head win) = Some (backend_script w))
    by (rewrite Hhead; by apply list_lookup_middle).
  assert (Hps2 : promises w2 = promises w ++ [Pending; Pending])
    by (rewrite <- Hps; reflexivity).
  assert (Hpend : promises w2 !! script_promise (backend_script w)
                  = Some Pending)
    by (rewrite Hps2; apply lookup_two_0).
  unfold script_onload.
  rewrite (script_event_settles _ Fulfilled w2 win1 _ Hwin1 Htag Hpend).
  cbn [snd script_promise backend_script].
  rewrite Hps2.
  rewrite insert_two_0.
  match goal with |- context [run_microtasks ?x] => set (w3 := x) end.
  destruct (microtasks_resume_one w3 (length (promises w))
              (S (length (promises w))) Fulfilled)
    as (H1 & H2 & _ & _ & H5).
  - transitivity (suspended (snd (init w))); [reflexivity|].
    by rewrite Hsp, Hsusp.
  - subst w3. cbn. apply lookup_two_0.
  - done.
  - subst w3. cbn. apply lookup_two_1.
  - split; [exact H1|]. split; [by rewrite H5|].
    unfold state_of. rewrite H2. subst w3. cbn.
    by rewrite insert_two_1, lookup_two_1.
Qed.

Lemma destroy_during_load_witness :
  let w := world_of browser sample_config in
  initializationState
    (after [OpInit; OpDestroy; OpScriptLoad 0; OpMicrotasks] w) = INITIALIZED.
Proof.
  intros w.
  destruct (destroy_during_load w plain_page) as (_ & _ & H & _);
    [reflexivity|reflexivity|discriminate|reflexivity|exact H].
Defined.

Lemma init_without_window (w : World) :
  window w = None → isInitialized w = false →
  initializationState w ≠ INITIALIZING →
  let p := length (promises w) in
  let w1 := snd (init w) in
  fst (init w) = Normal (S p) ∧
  initializationState w1 = INITIALIZING ∧
  gtagLoadPromise w1 = Some p ∧
  promises w1 =
    promises w ++
      [Rejected {| error_class := ReferenceError;
                   message := "document is not defined" |}; Pending] ∧
  suspended w1 = suspended w ++ [(p, S p)] ∧
  load_attempts w1 = S (load_attempts w) ∧
  config w1 = config w ∧ gtag_calls w1 = gtag_calls w ∧ window w1 = None.
Proof.
  intros Hwin Hready Hstate p w1.
  destruct (isInitialized_false w Hready) as (Hd & _ & Hg).
  assert (Hready' : isInitialized (set_initializationState INITIALIZING w) = false).
  { unfold isInitialized. cbn. rewrite Hd. exact Hg. }
  subst w1 p. unfold init. js_unfold. rewrite Hready.
  rewrite bool_decide_eq_false_2 by done. cbv beta.
  unfold loadGoogleAnalytics. js_unfold. rewrite Hready'.
  unfold new_Promise, new_promise, append_script, settle. js_unfold. cbn.
  rewrite Hwin. cbn. rewrite list_lookup_middle by done. cbn.
  rewrite ?length_insert, ?length_app. cbn. rewrite ?Nat.add_1_r.
  rewrite insert_app_r_alt by lia. rewrite Nat.sub_diag. cbn.
  rewrite <- ?(assoc_L (++)). cbn. done.
Qed.

Lemma failed_round_without_window (w : World) :
  window w = None → isInitialized w = false →
  initializationState w ≠ INITIALIZING → suspended w = [] →
  let w' := after init_round w in
  initializationState w' = FAILED ∧
  state_of w' (S (length (promises w))) =
    Rejected (new_Error "GA4 initialization failed: document is not defined") ∧
  load_attempts w' = S (load_attempts w) ∧
  window w' = None ∧ config w' = config w ∧ suspended w' = [] ∧
  gtag_calls w' = gtag_calls w.
Proof.
  intros Hwin Hready Hstate Hsusp.
  destruct (init_without_window w Hwin Hready Hstate)
    as (_ & _ & _ & Hps & Hsp & Hla & Hcfg & Hcalls & Hwin1).
  unfold init_round, after. cbn [foldl]. rewrite run_init.
  cbn [run_operation].
  destruct (microtasks_resume_one (snd (init w)) (length (promises w))
              (S (length (promises w)))
              (Rejected {| error_class := ReferenceError;
                           message := "document is not defined" |}))
    as (H1 & H2 & H3 & (A & B & C & D) & _).
  - by rewrite Hsp, Hsusp.
  - rewrite Hps. apply lookup_two_0.
  - done.
  - rewrite Hps. apply lookup_two_1.
  - cbn zeta. split; [exact H1|]. split.
    { unfold state_of. rewrite H2, Hps, insert_two_1, lookup_two_1. done. }
    rewrite A, B, C, D. done.
Qed.

(** X7: without a window every round of initialization fails and the next
    one tries again.  Starting with tracking enabled, no initialization
    under way or completed and nothing suspended, after [n] rounds of
    [init] followed by the microtasks there were [n] more load attempts,
    no call of the reporting function, [isInitialized] answers false, and
    from the first round on the state is [FAILED]. *)
Theorem retries_without_window (n : nat) (w : World) :
  window w = None → isInitialized w = false →
  initializationState w ≠ INITIALIZING → suspended w = [] →
  let w' := after (init_rounds n) w in
  load_attempts w' = (load_attempts w + n)%nat ∧
  gtag_calls w' = gtag_calls w ∧
  isInitialized w' = false ∧
  (0 < n → initializationState w' = FAILED)%nat.
Proof.
  revert w. induction n as [|n IH]; intros w Hwin Hready Hstate Hsusp.
  - cbn. split; [lia|]. split; [done|]. split; [done|lia].
  - destruct (failed_round_without_window w Hwin Hready Hstate Hsusp)
      as (A & _ & C & D & E & F & G).
    cbn [init_rounds]. unfold after in *. rewrite foldl_app.
    set (w1 := foldl _ w init_round) in *.
    assert (Hd : flag (disableGA (config w)) = false)
      by (by destruct (isInitialized_false w Hready)).
    assert (Hready1 : isInitialized w1 = false).
    { unfold isInitialized, isGtagAvailable, isBrowser.
      rewrite E, Hd, A, D. done. }
    destruct (IH w1 D Hready1) as (I1 & I2 & I3 & I4);
      [by rewrite A|exact F|].
    cbn zeta. rewrite I1, I2, C, G. split; [lia|]. split; [done|].
    split; [exact I3|]. intros _. destruct n as [|n]; [exact A|apply I4; lia].
Qed.

Lemma retries_without_window_witness :
  let w := world_of server sample_config in
  load_attempts (after (init_rounds 3) w) = (load_attempts w + 3)%nat ∧
  initializationState (after (init_rounds 3) w) = FAILED.
Proof.
  intros w.
  destruct (retries_without_window 3 w) as (Hn & _ & _ & Hst);
    [reflexivity|reflexivity|discriminate|reflexivity|].
  split; [exact Hn|apply Hst; lia].
Defined.

(** ** Dispatch *)

(** X8: on dispatch the caller's custom parameters win.  When the channel
    is ready, [trackEvent] makes exactly one call of the reporting
    function, under the name of the event, and each key of its data
    carries the value from [options.customParameters] if there is one and
    the event's own parameter otherwise. *)
Theorem custom_parameters_win (e : GAEvent) (o : TrackingOptions) (w : World) :
  ready w = true →
  ∃ data,
    reported w (snd (trackEvent e o w)) = [GtagEvent (event_name e) data] ∧
    ∀ k, data !! k =
         match customParameters o !! k with
         | Some v => Some v
         | None => event_parameters e !! k
         end.
Proof.
  intros Hr. exists (customParameters o ∪ event_parameters e). split.
  - unfold reported. rewrite trackEvent_calls, Hr. by rewrite drop_app_length.
  - intros k. rewrite lookup_union.
    destruct (customParameters o !! k), (event_parameters e !! k); done.
Qed.

Lemma custom_parameters_win_witness :
  let w := world_of tagged_browser sample_config in
  let o := {| customParameters := {["level" := num (Finite 6)]};
              onError := false |} in
  ∃ data,
    reported w (snd (trackEvent sample_event o w)) = [GtagEvent "level_up" data] ∧
    data !! "level" = Some (num (Finite 6)).
Proof.
  intros w o.
  destruct (custom_parameters_win sample_event o w) as (data & Hcall & Hdata);
    [reflexivity|].
  exists data. split; [exact Hcall|]. rewrite Hdata. reflexivity.
Defined.

(** X9: a reporting function that throws does not break the caller.
    [trackEvent] then completes normally, logs
    "GA4: Error tracking event", queues the [onError] callback with the
    error as a microtask if one was given (it is not called
    synchronously), and leaves the window and the initialization state
    alone. *)
Theorem dispatch_failure_is_absorbed (e : GAEvent) (o : TrackingOptions)
    (w : World) (win : Window) (err : JsError) :
  flag (disableGA (config w)) = false →
  window w = Some win → gtag win = Some (ForeignGtag (Some err)) →
  ∃ w', trackEvent e o w = (Normal tt, w') ∧
        console w' = console w ++ [(Err, "GA4: Error tracking event")] ∧
        microtasks w' = microtasks w ++ (if onError o then [err] else []) ∧
        reported w w' =
          [GtagEvent (event_name e) (customParameters o ∪ event_parameters e)] ∧
        window w' = window w ∧
        initializationState w' = initializationState w.
Proof.
  intros Hd Hwin Hg. unfold trackEvent, console_log, queueMicrotask, call_gtag,
    reported, isGtagAvailable, isBrowser.
  rewrite literal_of_two_spreads. js_unfold. rewrite Hd, Hwin. cbn.
  rewrite Hg. cbn. rewrite Hwin. cbn. rewrite Hg. cbn.
  destruct (onError o); cbn; eexists; (split; [reflexivity|]); cbn;
    rewrite ?app_nil_r, drop_app_length; done.
Qed.

Lemma dispatch_failure_is_absorbed_witness :
  let w := world_of blocked_browser sample_config in
  let o := {| customParameters := ∅; onError := true |} in
  ∃ w', trackEvent sample_event o w = (Normal tt, w') ∧
        microtasks w' = microtasks w ++ [new_Error "blocked"].
Proof.
  intros w o.
  destruct (dispatch_failure_is_absorbed sample_event o w
              (set_gtag (Some (ForeignGtag (Some (new_Error "blocked"))))
                 plain_page) (new_Error "blocked"))
    as (w' & Hrun & _ & Hq & _); [reflexivity|reflexivity|reflexivity|].
  exists w'. split; assumption.
Defined.

(** X10: events tracked while the script is still loading are not lost.
    After the first [init] in a browser, and before any script event, the
    state is [INITIALIZING], yet [trackEvent] reaches the function that
    [configureGA] installed: the event is pushed on [window.dataLayer]
    right after the configuration calls. *)
Theorem tracked_while_loading (e : GAEvent) (o : TrackingOptions)
    (w : World) (win : Window) :
  window w = Some win → isInitialized w = false →
  initializationState w ≠ INITIALIZING →
  let w1 := snd (init w) in
  let w2 := snd (trackEvent e o w1) in
  let call := GtagEvent (event_name e)
                (customParameters o ∪ event_parameters e) in
  initializationState w2 = INITIALIZING ∧
  gtag_calls w2 = gtag_calls w ++ configuration_calls w ++ [call] ∧
  ∃ win2, window w2 = Some win2 ∧
          dataLayer win2 =
            Some (default [] (dataLayer win) ++ configuration_calls w ++ [call]).
Proof.
  intros Hwin Hready Hstate.
  destruct (init_synchronous_part w win Hwin Hready Hstate)
    as (_ & Hst & _ & _ & _ & _ & Hcfg & Hcalls & win1 & Hwin1 & Hg1 & _ & Hdl).
  destruct (isInitialized_false w Hready) as (Hd & _ & _).
  cbn zeta. unfold trackEvent, console_log, queueMicrotask, call_gtag,
    isGtagAvailable, isBrowser.
  rewrite literal_of_two_spreads. js_unfold. rewrite Hcfg, Hd, Hwin1. cbn.
  rewrite Hg1. cbn. rewrite Hwin1. cbn. rewrite Hg1. cbn. rewrite Hdl. cbn.
  rewrite Hcalls, Hst, <- !(assoc_L (++)). split; [done|]. split; [done|].
  eexists. split; [reflexivity|]. done.
Qed.

Lemma tracked_while_loading_witness :
  let w := world_of browser sample_config in
  let w2 := snd (trackEvent sample_event no_options (snd (init w))) in
  initializationState w2 = INITIALIZING ∧
  gtag_calls w2 =
    gtag_calls w ++ configuration_calls w ++
    [GtagEvent "level_up" (∅ ∪ event_parameters sample_event)].
Proof.
  intros w w2.
  destruct (tracked_while_loading sample_event no_options w plain_page)
    as (Hst & Hcalls & _); [reflexivity|reflexivity|discriminate|].
  split; assumption.
Defined.

(** ** More about the builders *)

Lemma eqb_of_not_elem (a b : string) (l : list string) :
  a ∉ b :: l → String.eqb a b = false ∧ a ∉ l.
Proof.
  rewrite not_elem_of_cons. intros [H1 H2]. split; [|exact H2].
  by apply String.eqb_neq.
Qed.

Ltac refute_action H :=
  repeat (apply eqb_of_not_elem in H; destruct H as [-> H]).

(** X11: an action outside the enum is refused by name.  With a non-empty
    item list and a truthy value, [trackCart], [trackWishlist],
    [trackItem] and [trackPromotion] (given a creative name) throw
    "GA4: Unsupported ... action <action>" for every action string that
    is not one of theirs and leave the world as it was; [trackItem]
    words the error as for a cart action, and the oldest [trackCart]
    also refuses [update_cart]. *)
Theorem unsupported_action_refused (action : string) (items : list CartItem)
    (n : number) (cp : gmap string JsValue) (w : World) :
  items ≠ [] → number_truthy n = true →
  (¬ valid_cart_action action →
   refuses (Positional.trackCart action items (Some n) cp) w
     ("GA4: Unsupported cart action " +:+ action) ∧
   refuses (ObjectParam.trackCart action items (Some n) cp) w
     ("GA4: Unsupported cart action " +:+ action)) ∧
  (¬ valid_wishlist_action action →
   refuses (Positional.trackWishlist action items (Some n) cp) w
     ("GA4: Unsupported wishlist action " +:+ action) ∧
   refuses (ObjectParam.trackWishlist action items (Some n) cp) w
     ("GA4: Unsupported wishlist action " +:+ action)) ∧
  (¬ valid_item_action action →
   ∀ id name v,
     refuses (Positional.trackItem action items id name v cp) w
       ("GA4: Unsupported cart action " +:+ action) ∧
     refuses (ObjectParam.trackItem action items id name v cp) w
       ("GA4: Unsupported cart action " +:+ action)) ∧
  (¬ valid_promotion_action action →
   ∀ creative slot pid pname, creative ≠ "" →
     refuses (Positional.trackPromotion action items creative slot pid pname cp)
       w ("GA4: Unsupported promotion action " +:+ action) ∧
     refuses (ObjectParam.trackPromotion action items creative slot pid pname cp)
       w ("GA4: Unsupported promotion action " +:+ action)) ∧
  (action ∉ [CartType.ADD_TO_CART; CartType.REMOVE_FROM_CART;
             CartType.VIEW_CART] →
   refuses (Legacy.trackCart action items (Some n) cp) w
     ("GA4: Unsupported cart action " +:+ action)).
Proof.
  intros Hitems%nonempty_length Hn.
  unfold refuses, valid_cart_action, valid_wishlist_action, valid_item_action,
    valid_promotion_action.
  split; [|split; [|split; [|split]]].
  - intros H.
    unfold Positional.trackCart, ObjectParam.trackCart, missing.
    cbn [of_option_number truthy]. rewrite Hitems, Hn. cbn [negb].
    refute_action H. done.
  - intros H.
    unfold Positional.trackWishlist, ObjectParam.trackWishlist, missing.
    cbn [of_option_number truthy is_nullish]. rewrite Hitems, Hn. cbn [negb].
    refute_action H. done.
  - intros H id name v.
    unfold Positional.trackItem, ObjectParam.trackItem. rewrite Hitems.
    refute_action H. done.
  - intros H creative slot pid pname Hc%nonempty_truthy.
    unfold Positional.trackPromotion, ObjectParam.trackPromotion.
    rewrite Hitems, Hc. cbn [negb]. refute_action H. done.
  - intros H. unfold Legacy.trackCart. rewrite Hitems. refute_action H. done.
Qed.

Lemma unsupported_action_refused_witness :
  let w := world_of tagged_browser sample_config in
  refuses (Positional.trackCart "checkout" [shirt] (Some (Finite 5)) ∅) w
    "GA4: Unsupported cart action checkout".
Proof.
  intros w.
  destruct (unsupported_action_refused "checkout" [shirt] (Finite 5) ∅ w)
    as (H & _); [discriminate|reflexivity|].
  destruct H as [H _]; [|exact H].
  unfold valid_cart_action. rewrite !elem_of_cons, elem_of_nil.
  intros [?|[?|[?|[?|[]]]]]; discriminate.
Defined.

Ltac custom_lookup Hk Hnot :=
  unfold object_literal; cbn [foldl add_member];
  cbn [assigned_last] in Hnot;
  repeat match goal with
    | E : String.eqb ?a ?b = _ |- _ =>
        match type of Hnot with context [String.eqb a b] => rewrite E in Hnot end
    end;
  repeat (apply not_elem_of_cons in Hnot; destruct Hnot as [? Hnot]);
  repeat (rewrite lookup_insert_ne by naive_solver);
  by apply lookup_union_Some_l.

Ltac settle_custom :=
  js_unfold; split_guards;
  first
    [ left; eexists; reflexivity
    | right; eexists; split; [reflexivity|];
      cbn [event_parameters call_customParams];
      let k := fresh "k" in let v := fresh "v" in
      let Hk := fresh "Hk" in let Hnot := fresh "Hnot" in
      intros k v Hk Hnot; custom_lookup Hk Hnot ].

Lemma positional_keeps_custom (c : EcommerceCall) (w : World) :
  keeps_custom (perform_positional c) c w.
Proof.
  unfold keeps_custom.
  destruct c as [a items id nm v cp|a items v cp|a items v cp|items v t cp
                |items v t cp|tid v items cp|tid v items cp
                |a items cn cs pid pn cp];
    cbn [perform_positional];
    unfold Positional.trackItem, Positional.trackCart, Positional.trackWishlist,
      Positional.trackShippingInfo, Positional.trackPaymentInfo,
      Positional.trackPurchase, Positional.trackRefund,
      Positional.trackPromotion, Positional.buildEvent, fixed_value;
    try (destruct v as [n|]; cbn [missing of_option_number truthy negb]);
    settle_custom.
Qed.

Lemma object_param_keeps_custom (c : EcommerceCall) (w : World) :
  keeps_custom (perform_object_param c) c w.
Proof.
  unfold keeps_custom.
  destruct c as [a items id nm v cp|a items v cp|a items v cp|items v t cp
                |items v t cp|tid v items cp|tid v items cp
                |a items cn cs pid pn cp];
    cbn [perform_object_param];
    unfold ObjectParam.trackItem, ObjectParam.trackCart,
      ObjectParam.trackWishlist, ObjectParam.trackShippingInfo,
      ObjectParam.trackPaymentInfo, ObjectParam.trackPurchase,
      ObjectParam.trackRefund, ObjectParam.trackPromotion,
      ObjectParam.buildEvent, fixed_value;
    try (destruct v as [n|];
         cbn [missing is_nullish of_option_number truthy negb]);
    settle_custom.
Qed.

(** X12: custom parameters override the computed fields of an e-commerce
    event.  Whenever one of the eight e-commerce builders, in the
    positional or the object-parameter revision, reports an event, every
    custom parameter is in the reported data with the caller's value, the
    keys that [trackItem] assigns afterwards apart: a custom [currency],
    [value], [items] or [transaction_id] replaces the one the builder
    computed. *)
Theorem custom_params_override (c : EcommerceCall) (w : World)
    (name : string) (data : gmap string JsValue) (k : string) (v : JsValue) :
  reported w (snd (perform_positional c w)) = [GtagEvent name data] ∨
  reported w (snd (perform_object_param c w)) = [GtagEvent name data] →
  call_customParams c !! k = Some v → k ∉ assigned_last c →
  data !! k = Some v.
Proof.
  intros [H|H] Hk Hnot.
  - destruct (positional_keeps_custom c w) as [[err Herr]|(e & Hd & Hkeep)].
    + by destruct (reported_after_throw _ _ _ name data Herr).
    + destruct (reported_one_event _ _ _ _ _ Hd H) as (_ & _ & ->).
      by apply Hkeep.
  - destruct (object_param_keeps_custom c w) as [[err Herr]|(e & Hd & Hkeep)].
    + by destruct (reported_after_throw _ _ _ name data Herr).
    + destruct (reported_one_event _ _ _ _ _ Hd H) as (_ & _ & ->).
      by apply Hkeep.
Qed.

Lemma custom_params_override_witness :
  let cp : gmap string JsValue := {["currency" := str "EUR"]} in
  let c := CallCart CartType.ADD_TO_CART [shirt] (Some (Finite 5)) cp in
  let data := object_literal
                [Field "currency" (str "USD");
                 Field "value" (num (Finite 5));
                 Field "items" (VItems (normalize_item <$> [shirt]));
                 Spread cp] in
  data !! "currency" = Some (str "EUR").
Proof.
  intros cp c data.
  apply (custom_params_override c (world_of tagged_browser sample_config)
           "add_to_cart" data "currency" (str "EUR")).
  - left. vm_compute. reflexivity.
  - reflexivity.
  - apply not_elem_of_nil.
Defined.

Ltac member_lookup :=
  unfold object_literal; cbn [foldl add_member];
  repeat first
    [ rewrite lookup_insert_eq
    | rewrite lookup_insert_ne by done
    | rewrite lookup_union_r by assumption
    | rewrite lookup_union_l by (by repeat (rewrite lookup_insert_ne by done))
    | rewrite lookup_empty ];
  try reflexivity.



Ltac pick_action H :=
  rewrite !elem_of_cons, elem_of_nil in H;
  repeat (destruct H as [->|H]); [..|destruct H].



(** X15: the oldest [trackCart] takes the value as optional and assigns it
    after the custom parameters.  For its three actions and a non-empty
    item list it always hands over the event; a given value, zero
    included, is reported rounded to two decimals whatever the custom
    parameters say, and without one the [value] key is left to the custom
    parameters. *)
Theorem legacy_cart_value (action : string) (items : list CartItem)
    (value : option number) (cp : gmap string JsValue) (w : World) :
  items ≠ [] →
  action ∈ [CartType.ADD_TO_CART; CartType.REMOVE_FROM_CART;
            CartType.VIEW_CART] →
  ∃ e, dispatches (Legacy.trackCart action items value cp) w e ∧
       event_name e = action ∧
       event_parameters e !! "value" =
         match value with
         | Some n => Some (num (toFixed 2 n))
         | None => cp !! "value"
         end.
Proof.
  intros Hitems%nonempty_length Hvalid.
  unfold dispatches, Legacy.trackCart, Legacy.buildEvent. rewrite Hitems.
  pick_action Hvalid; js_unfold; destruct value;
    eexists; (split; [reflexivity|]); (split; [reflexivity|]);
    cbn [event_parameters]; member_lookup.
Qed.

Lemma legacy_cart_value_witness :
  let w := world_of tagged_browser sample_config in
  let cp : gmap string JsValue := {["value" := num (Finite 1)]} in
  ∃ e, dispatches
         (Legacy.trackCart CartType.VIEW_CART [shirt] (Some (Finite 0)) cp) w e ∧
       event_parameters e !! "value" = Some (num (Finite 0)).
Proof.
  intros w cp.
  destruct (legacy_cart_value CartType.VIEW_CART [shirt] (Some (Finite 0)) cp w)
    as (e & Hd & _ & Hv).
  - discriminate.
  - rewrite !elem_of_cons. do 2 right; left; reflexivity.
  - exists e. split; [exact Hd|exact Hv].
Defined.

(** *** Refunds *)



(** *** Promotions *)

(** X17: the contract of [trackPromotion].  With a non-empty item list: an
    empty creative name is refused with
    "GA4: Cannot track <action> without creative_name", whatever the
    action; with a creative name and
    one of the two promotion actions the event goes out under the name of
    the action and carries the creative name and slot and the promotion
    id and name, unless the custom parameters carry these keys. *)
Theorem promotion_contract (action : string) (items : list CartItem)
    (creative slot pid pname : string) (cp : gmap string JsValue) (w : World) :
  items ≠ [] →
  (creative = "" →
   refuses (Positional.trackPromotion action items creative slot pid pname cp)
     w ("GA4: Cannot track " +:+ action +:+ " without creative_name") ∧
   refuses (ObjectParam.trackPromotion action items creative slot pid pname cp)
     w ("GA4: Cannot track " +:+ action +:+ " without creative_name")) ∧
  (creative ≠ "" → valid_promotion_action action →
   ∃ e1 e2,
     dispatches
       (Positional.trackPromotion action items creative slot pid pname cp)
       w e1 ∧
     dispatches
       (ObjectParam.trackPromotion action items creative slot pid pname cp)
       w e2 ∧
     Forall (λ e, event_name e = action ∧
                  ∀ k v, [("creative_name", creative); ("creative_slot", slot);
                          ("promotion_id", pid); ("promotion_name", pname)]
                           !! k = Some v →
                         cp !! v.1 = None →
                         event_parameters e !! v.1 = Some (str v.2))
       [e1; e2]).
Proof.
  intros Hitems%nonempty_length.
  unfold refuses, dispatches, Positional.trackPromotion,
    ObjectParam.trackPromotion, Positional.buildEvent, ObjectParam.buildEvent.
  rewrite Hitems. split.
  - intros ->. done.
  - intros Hc%nonempty_truthy Hvalid. rewrite Hc. cbn [negb].
    unfold valid_promotion_action in Hvalid. pick_action Hvalid; js_unfold;
      eexists _, _; (split; [reflexivity|]); (split; [reflexivity|]);
      cbn [event_name event_parameters];
      repeat constructor;
      intros [|[|[|[|k]]]] [key val]; cbn; intros [= <- <-] Hcp;
      cbn [fst snd] in *; member_lookup.
Qed.

Lemma promotion_contract_witness :
  let w := world_of tagged_browser sample_config in
  refuses
    (Positional.trackPromotion PromotionType.VIEW_PROMOTION [shirt] ""
       "top" "P1" "Spring" ∅) w
    "GA4: Cannot track view_promotion without creative_name" ∧
  ∃ e, dispatches
         (ObjectParam.trackPromotion PromotionType.SELECT_PROMOTION [shirt]
            "banner" "top" "P1" "Spring" ∅) w e ∧
       event_parameters e !! "promotion_id" = Some (str "P1").
Proof.
  intros w. split.
  - destruct (promotion_contract PromotionType.VIEW_PROMOTION [shirt] ""
                "top" "P1" "Spring" ∅ w) as [H _]; [discriminate|].
    destruct H as [H _]; [reflexivity|exact H].
  - destruct (promotion_contract PromotionType.SELECT_PROMOTION [shirt]
                "banner" "top" "P1" "Spring" ∅ w) as [_ H]; [discriminate|].
    destruct H as (e1 & e & _ & Hd & Hall).
    + discriminate.
    + unfold valid_promotion_action. rewrite !elem_of_cons.
      right; left; reflexivity.
    + exists e. split; [exact Hd|].
      apply Forall_cons in Hall as [_ Hall].
      apply Forall_cons in Hall as [[_ Hfields] _].
      apply (Hfields 2%nat ("promotion_id", "P1")); reflexivity.
Defined.

(** *** Checkout *)

(** X18: a missing value at [trackBeginCheckout].  In the positional and the
    object-parameter revision the failure of [value.toFixed] is caught:
    the call completes normally, reports nothing, and logs
    "GA4: Error tracking begin_checkout" in debug mode only.  The oldest
    revision has no handler there and throws the [TypeError]. *)
Theorem begin_checkout_missing_value (items : list CartItem)
    (cp : gmap string JsValue) (w : World) :
  Positional.trackBeginCheckout None items cp w =
    (Normal tt, checkout_error_logged w) ∧
  ObjectParam.trackBeginCheckout None items cp w =
    (Normal tt, checkout_error_logged w) ∧
  ∃ err, Legacy.trackBeginCheckout None items cp w = (Throw err, w) ∧
         error_class err = TypeError.
Proof.
  unfold Positional.trackBeginCheckout, ObjectParam.trackBeginCheckout,
    Legacy.trackBeginCheckout, checkout_error_logged, fixed_value,
    console_log.
  js_unfold. destruct (flag (debug (config w))); eauto.
Qed.




(** *** Shipping and payment *)

(** X20: shipping and payment information.  With a non-empty item list,
    [trackShippingInfo] and [trackPaymentInfo] refuse a value that is
    missing or falsy with "GA4: Cannot track shipping info without value"
    and "GA4: Cannot track payment info without value"; with a truthy
    value they hand over "add_shipping_info" and "add_payment_info"
    events with the configured currency, the rounded value and the
    shipping tier or the payment type, unless the custom parameters carry
    these keys. *)
Theorem checkout_step_contract (items : list CartItem) (value : option number)
    (tag : string) (cp : gmap string JsValue) (w : World) :
  items ≠ [] →
  (missing value = true →
   refuses (Positional.trackShippingInfo items value tag cp) w
     "GA4: Cannot track shipping info without value" ∧
   refuses (ObjectParam.trackShippingInfo items value tag cp) w
     "GA4: Cannot track shipping info without value" ∧
   refuses (Positional.trackPaymentInfo items value tag cp) w
     "GA4: Cannot track payment info without value" ∧
   refuses (ObjectParam.trackPaymentInfo items value tag cp) w
     "GA4: Cannot track payment info without value") ∧
  (∀ n, value = Some n → number_truthy n = true →
   ∃ s1 s2 p1 p2,
     dispatches (Positional.trackShippingInfo items value tag cp) w s1 ∧
     dispatches (ObjectParam.trackShippingInfo items value tag cp) w s2 ∧
     dispatches (Positional.trackPaymentInfo items value tag cp) w p1 ∧
     dispatches (ObjectParam.trackPaymentInfo items value tag cp) w p2 ∧
     Forall (λ e, priced_event "add_shipping_info" n cp w e ∧
                  (cp !! "shipping_tier" = None →
                   event_parameters e !! "shipping_tier" = Some (str tag)))
       [s1; s2] ∧
     Forall (λ e, priced_event "add_payment_info" n cp w e ∧
                  (cp !! "payment_type" = None →
                   event_parameters e !! "payment_type" = Some (str tag)))
       [p1; p2]).
Proof.
  intros Hitems%nonempty_length.
  unfold refuses, dispatches, Positional.trackShippingInfo,
    ObjectParam.trackShippingInfo, Positional.trackPaymentInfo,
    ObjectParam.trackPaymentInfo, Positional.buildEvent,
    ObjectParam.buildEvent, priced_event.
  rewrite Hitems. split.
  - intros ->. done.
  - intros n -> Hn. unfold missing, fixed_value.
    cbn [of_option_number truthy]. rewrite Hn. cbn [negb]. js_unfold.
    eexists _, _, _, _. do 4 (split; [reflexivity|]).
    split; repeat constructor;
      cbn [event_name event_category event_parameters];
      intros; member_lookup.
Qed.

Lemma checkout_step_contract_witness :
  let w := world_of tagged_browser sample_config in
  refuses (Positional.trackShippingInfo [shirt] (Some (Finite 0)) "Ground" ∅) w
    "GA4: Cannot track shipping info without value" ∧
  ∃ e, dispatches
         (ObjectParam.trackPaymentInfo [shirt] (Some (Finite 20)) "Card" ∅) w e ∧
       event_parameters e !! "payment_type" = Some (str "Card").
Proof.
  intros w. split.
  - destruct (checkout_step_contract [shirt] (Some (Finite 0)) "Ground" ∅ w)
      as [H _]; [discriminate|].
    destruct H as [H _]; [reflexivity|exact H].
  - destruct (checkout_step_contract [shirt] (Some (Finite 20)) "Card" ∅ w)
      as [_ H]; [discriminate|].
    destruct (H (Finite 20) eq_refl eq_refl)
      as (s1 & s2 & p1 & p2 & _ & _ & _ & Hd & _ & Hall).
    exists p2. split; [exact Hd|].
    apply Forall_cons in Hall as [_ Hall].
    apply Forall_cons in Hall as [[_ Htype] _].
    apply Htype. reflexivity.
Defined.

(** *** Page views *)



(** *** Timing and video *)






(** *** Event names *)

Lemma EVENT_NAME_test_length (s : string) :
  EVENT_NAME_test s = true →
  s ≠ "" ∧ (String.length s ≤ MAX_EVENT_NAME_LENGTH)%nat.
Proof.
  destruct s as [|c rest]; [discriminate|]. cbn [EVENT_NAME_test].
  intros [[_ Hlen%Nat.leb_le]%andb_prop _]%andb_prop.
  split; [done|]. unfold MAX_EVENT_NAME_LENGTH. cbn [String.length]. lia.
Qed.

(** X24: the verdict of [validateEventName] is that of the pattern.  A name is
    valid exactly when it matches [/^[a-zA-Z][a-zA-Z0-9_]{0,39}$/]: the
    checks for an empty name and for the length reject nothing that the
    pattern accepts.  An error message is given exactly for an invalid
    name; a name longer than 40 characters gets the message about the
    length, whatever its characters, and a shorter, non-empty name that
    fails the pattern gets the message about the characters. *)
Theorem validateEventName_verdict (s : string) :
  isValid (validateEventName s) = EVENT_NAME_test s ∧
  (error (validateEventName s) = None ↔ isValid (validateEventName s) = true) ∧
  ((MAX_EVENT_NAME_LENGTH < String.length s)%nat →
   error (validateEventName s) =
     Some "Event name exceeds maximum length of 40 characters") ∧
  (s ≠ "" → (String.length s ≤ MAX_EVENT_NAME_LENGTH)%nat →
   EVENT_NAME_test s = false →
   error (validateEventName s) =
     Some "Event name must start with a letter and contain only letters, numbers, and underscores").
Proof.
  unfold validateEventName, string_truthy.
  destruct (String.eqb_spec s "") as [->|Hs]; cbn [negb].
  { repeat split; try done. unfold MAX_EVENT_NAME_LENGTH. cbn. lia. }
  destruct (Nat.ltb_spec MAX_EVENT_NAME_LENGTH (String.length s)) as [Hlong|Hok].
  - cbn [isValid error]. repeat split; try done; try lia.
    destruct (EVENT_NAME_test s) eqn:E; [|done].
    apply EVENT_NAME_test_length in E. lia.
  - destruct (EVENT_NAME_test s) eqn:E; cbn [negb isValid error];
      repeat split; try done; lia.
Qed.

Lemma validateEventName_verdict_witness :
  error (validateEventName "9lives") =
    Some "Event name must start with a letter and contain only letters, numbers, and underscores".
Proof.
  destruct (validateEventName_verdict "9lives") as (_ & _ & _ & H).
  apply H; [discriminate|unfold MAX_EVENT_NAME_LENGTH; simpl; lia|reflexivity].
Defined.
